(** * TaxTime: document classification and field extraction

    A shallow embedding of the document parsing pipeline of the TaxTime
    client:

    - [services/ocrProviders.ts]            (the hybrid text source provider),
    - [services/documentParsingService.ts]  (classifier, generic extraction,
                                             post-processing, orchestration),
    - [services/formParsers.ts]             (per-form parsers and coercions).

    Modelling conventions.

    - A JavaScript [number] is an exact rational ([Q]).  Doubles round and have
      [NaN] and infinities; the model has neither.  [parseFloat] returns
      [option Q], [None] standing for [NaN].  The constants of the source
      (0.4, 0.6, the base confidences, the thresholds 0.3, 0.7 and 0.8) keep
      every comparison made below away from a rounding boundary.
    - A JavaScript string is a [string] of 8-bit characters; regular
      expressions are values of an abstract syntax, interpreted by a
      backtracking matcher that follows the ECMAScript matching order
      (leftmost start, greedy quantifiers, ordered alternation).
    - A promise is represented by its settled outcome ([Fulfilled] or
      [Rejected]); an [async] function is a function into that type.
    - Objects mutated in place ([field.confidence = ...], [fields.push])
      are modelled by functional update: every field object of the source is
      created by the call that returns it and is never shared between two
      documents. *)

From Stdlib Require Import ZArith QArith Qminmax Lqa Lia.
From Stdlib Require Import String Ascii List Bool Arith.
From Stdlib Require Import DecimalString.
From Stdlib Require Import Sorting.Permutation Sorting.Sorted.
Import ListNotations.

Set Implicit Arguments.

Open Scope string_scope.
Open Scope Q_scope.

(** ** Numbers *)

Module Num.

Definition ltb (x y : Q) : bool := negb (Qle_bool y x).
Definition leb (x y : Q) : bool := Qle_bool x y.
Definition gtb (x y : Q) : bool := ltb y x.

(** [Math.max(a, b)] and [Math.min(a, b)] on finite numbers. *)
Definition Math_max (a b : Q) : Q := if leb a b then b else a.
Definition Math_min (a b : Q) : Q := if leb a b then a else b.

End Num.

(** ** Characters and strings *)

Module Str.

Definition code (c : ascii) : nat := nat_of_ascii c.

Definition in_range (lo hi c : ascii) : bool :=
  (code lo <=? code c)%nat && (code c <=? code hi)%nat.

Definition is_digit : ascii -> bool := in_range "0" "9".
Definition is_upper : ascii -> bool := in_range "A" "Z".
Definition is_lower : ascii -> bool := in_range "a" "z".

(** The white space and line terminators of ECMAScript that fit in 8 bits:
    TAB, LF, VT, FF, CR and SPACE. *)
Definition is_space (c : ascii) : bool :=
  ((9 <=? code c)%nat && (code c <=? 13)%nat) || (code c =? 32)%nat.

Definition is_line_terminator (c : ascii) : bool :=
  (code c =? 10)%nat || (code c =? 13)%nat.

Definition one_of (cs : string) (c : ascii) : bool :=
  existsb (Ascii.eqb c) (list_ascii_of_string cs).

Definition to_lower (c : ascii) : ascii :=
  if is_upper c then ascii_of_nat (code c + 32) else c.

Definition to_upper (c : ascii) : ascii :=
  if is_lower c then ascii_of_nat (code c - 32) else c.

Definition chars (s : string) : list ascii := list_ascii_of_string s.
Definition of_chars (l : list ascii) : string := string_of_list_ascii l.

(** [s.toLowerCase()] *)
Definition toLowerCase (s : string) : string :=
  of_chars (map to_lower (chars s)).

(** [s.replace(/[...]/g, '')] for a one-character class: every character
    of the class is deleted. *)
Definition remove_chars (cls : ascii -> bool) (s : string) : string :=
  of_chars (filter (fun c => negb (cls c)) (chars s)).

Fixpoint drop_while (p : ascii -> bool) (l : list ascii) : list ascii :=
  match l with
  | [] => []
  | c :: l' => if p c then drop_while p l' else l
  end.

(** [s.trim()] *)
Definition trim (s : string) : string :=
  of_chars (rev (drop_while is_space (rev (drop_while is_space (chars s))))).

Fixpoint is_prefix (p l : list ascii) : bool :=
  match p, l with
  | [], _ => true
  | a :: p', b :: l' => Ascii.eqb a b && is_prefix p' l'
  | _ :: _, [] => false
  end.

Fixpoint includes_chars (l p : list ascii) : bool :=
  is_prefix p l ||
  match l with
  | [] => false
  | _ :: l' => includes_chars l' p
  end.

(** [s.includes(t)] *)
Definition includes (s t : string) : bool := includes_chars (chars s) (chars t).

(** [s.padStart(n, '0')] *)
Definition padStart0 (n : nat) (s : string) : string :=
  of_chars (repeat "0"%char (n - String.length s)) ++ s.

(** Decimal rendering of an array index in a template literal. *)
Definition of_nat (n : nat) : string := NilZero.string_of_uint (Nat.to_uint n).

Definition is_empty (s : string) : bool :=
  match s with EmptyString => true | _ => false end.

End Str.

(** ** Regular expressions *)

Module Regex.

(** Abstract syntax of the patterns used by the source.  [Cls inv set] is a
    character class ([inv] for [[^...]]); [Grp n r] is the [n]-th capturing
    group; [Bol] is the assertion [^]. *)
Inductive regex : Type :=
| Eps : regex
| Cls : bool -> (ascii -> bool) -> regex
| Cat : regex -> regex -> regex
| Alt : regex -> regex -> regex
| Star : regex -> regex
| Grp : nat -> regex -> regex
| Bol : regex.

(** A [RegExp] object: pattern and the flags [i], [m], [g]. *)
Record RegExp : Type := mkRegExp {
  pattern : regex;
  ignoreCase : bool;
  multiline : bool;
  global : bool
}.

Definition captures : Type := list (nat * list ascii).

(** What [String.prototype.match] returns for a regex without [g]:
    [whole] is [match[0]], [groups] the captures that took part. *)
Record MatchArray : Type := mkMatch {
  whole : string;
  groups : captures
}.

Fixpoint lookup (n : nat) (c : captures) : option (list ascii) :=
  match c with
  | [] => None
  | (i, s) :: c' => if Nat.eqb i n then Some s else lookup n c'
  end.

(** [match[n]] for [n >= 1]; [None] is [undefined]. *)
Definition group (m : MatchArray) (n : nat) : option string :=
  option_map Str.of_chars (lookup n (groups m)).

Section Matcher.

Variable R : Type.
Variable re : RegExp.

(** The previous character (if any) and the rest of the input. *)
Definition cont : Type := option ascii -> list ascii -> captures -> option R.

(** Membership in a class, canonicalising both sides under [i]. *)
Definition in_class (inv : bool) (set : ascii -> bool) (c : ascii) : bool :=
  let found :=
    if ignoreCase re
    then set c || set (Str.to_lower c) || set (Str.to_upper c)
    else set c in
  xorb inv found.

Definition at_line_start (prev : option ascii) : bool :=
  match prev with
  | None => true
  | Some c => multiline re && Str.is_line_terminator c
  end.

(** Backtracking matcher in continuation-passing style.  [Star] is greedy
    and refuses an iteration that consumes nothing; the number of
    iterations is therefore bounded by the length of the input. *)
Fixpoint run (r : regex) (prev : option ascii) (s : list ascii)
         (c : captures) (k : cont) {struct r} : option R :=
  match r with
  | Eps => k prev s c
  | Cls inv set =>
      match s with
      | [] => None
      | a :: s' => if in_class inv set a then k (Some a) s' c else None
      end
  | Cat r1 r2 =>
      run r1 prev s c (fun prev' s' c' => run r2 prev' s' c' k)
  | Alt r1 r2 =>
      match run r1 prev s c k with
      | Some x => Some x
      | None => run r2 prev s c k
      end
  | Star r1 =>
      (fix loop (n : nat) (prev : option ascii) (s : list ascii)
                (c : captures) {struct n} : option R :=
         match n with
         | O => k prev s c
         | S n' =>
             match run r1 prev s c
                     (fun prev' s' c' =>
                        if (List.length s' <? List.length s)%nat
                        then loop n' prev' s' c'
                        else None) with
             | Some x => Some x
             | None => k prev s c
             end
         end) (List.length s) prev s c
  | Grp i r1 =>
      run r1 prev s c
          (fun prev' s' c' =>
             k prev' s'
               ((i, firstn (List.length s - List.length s') s) :: c'))
  | Bol => if at_line_start prev then k prev s c else None
  end.

End Matcher.

(** A match anchored at the current position: the matched text, the
    captures, the last character consumed and the remaining input. *)
Definition match_here (re : RegExp) (prev : option ascii) (s : list ascii)
  : option (MatchArray * option ascii * list ascii) :=
  run re (pattern re) prev s []
      (fun prev' s' c =>
         Some (mkMatch (Str.of_chars (firstn (List.length s - List.length s') s)) c,
               prev', s')).

(** Leftmost match at or after the current position. *)
Fixpoint search (re : RegExp) (prev : option ascii) (s : list ascii)
  : option (MatchArray * option ascii * list ascii) :=
  match match_here re prev s with
  | Some r => Some r
  | None =>
      match s with
      | [] => None
      | a :: s' => search re (Some a) s'
      end
  end.

(** [text.match(re)] for [re] without the [g] flag; [None] is [null]. *)
Definition String_match (text : string) (re : RegExp) : option MatchArray :=
  option_map (fun r => fst (fst r)) (search re None (Str.chars text)).

(** [re.test(text)] for [re] without the [g] flag. *)
Definition test (re : RegExp) (text : string) : bool :=
  match String_match text re with Some _ => true | None => false end.

(** All successive matches, as [text.match(re)] collects them under [g]:
    the search resumes where the previous match ended, one character
    further after an empty match. *)
Fixpoint collect (fuel : nat) (re : RegExp) (prev : option ascii)
         (s : list ascii) : list string :=
  match fuel with
  | O => []
  | S fuel' =>
      match search re prev s with
      | None => []
      | Some (m, prev', s') =>
          whole m ::
          (if Str.is_empty (whole m)
           then match s' with
                | [] => []
                | a :: s'' => collect fuel' re (Some a) s''
                end
           else collect fuel' re prev' s')
      end
  end.

(** [text.match(re)] for [re] with the [g] flag; the empty list is [null]. *)
Definition String_match_all (text : string) (re : RegExp) : list string :=
  collect (S (String.length text)) re None (Str.chars text).

(** *** Pattern combinators *)

Definition chr (c : ascii) : regex := Cls false (Ascii.eqb c).
Definition set (p : ascii -> bool) : regex := Cls false p.
Definition nset (p : ascii -> bool) : regex := Cls true p.
Definition dot : regex := Cls true Str.is_line_terminator.
Definition digit : regex := Cls false Str.is_digit.
Definition space : regex := Cls false Str.is_space.
Definition opt (r : regex) : regex := Alt r Eps.
Definition plus (r : regex) : regex := Cat r (Star r).

Fixpoint seq (rs : list regex) : regex :=
  match rs with
  | [] => Eps
  | [r] => r
  | r :: rs' => Cat r (seq rs')
  end.

Fixpoint alts (rs : list regex) : regex :=
  match rs with
  | [] => Eps
  | [r] => r
  | r :: rs' => Alt r (alts rs')
  end.

Definition lit (s : string) : regex := seq (map chr (Str.chars s)).

Fixpoint times (n : nat) (r : regex) : regex :=
  match n with
  | O => Eps
  | S n' => Cat r (times n' r)
  end.

(** [r{n,m}] with [n <= m], greedy. *)
Fixpoint upto (k : nat) (r : regex) : regex :=
  match k with
  | O => Eps
  | S k' => opt (Cat r (upto k' r))
  end.

Definition between (n m : nat) (r : regex) : regex :=
  Cat (times n r) (upto (m - n) r).

Definition re_i (r : regex) : RegExp := mkRegExp r true false false.
Definition re_m (r : regex) : RegExp := mkRegExp r false true false.
Definition re_g (r : regex) : RegExp := mkRegExp r false false true.
Definition re_plain (r : regex) : RegExp := mkRegExp r false false false.

End Regex.

(** ** [parseFloat] *)

Module Js.

Definition digit_val (c : ascii) : Z := Z.of_nat (Str.code c - 48).

Fixpoint take_digits (l : list ascii) : list ascii * list ascii :=
  match l with
  | c :: l' =>
      if Str.is_digit c
      then let (d, r) := take_digits l' in (c :: d, r)
      else ([], l)
  | [] => ([], [])
  end.

Definition digits_val (d : list ascii) : Z :=
  fold_left (fun acc c => (10 * acc + digit_val c)%Z) d 0%Z.

Definition pow10 (n : nat) : positive := Pos.pow 10 (Pos.of_nat n).

(** [10^|d|] as a denominator. *)
Definition scale (d : list ascii) : positive :=
  match d with
  | [] => 1%positive
  | _ => pow10 (List.length d)
  end.

(** The optional exponent part [e[+-]?digits]; [0] when absent. *)
Definition exponent (l : list ascii) : Z :=
  match l with
  | c :: l' =>
      if Str.one_of "eE" c then
        let (neg, l'') :=
          match l' with
          | "-"%char :: t => (true, t)
          | "+"%char :: t => (false, t)
          | _ => (false, l')
          end in
        let (d, _) := take_digits l'' in
        match d with
        | [] => 0%Z
        | _ => if neg then (- digits_val d)%Z else digits_val d
        end
      else 0%Z
  | [] => 0%Z
  end.

(** The value of the longest prefix that is an unsigned decimal literal
    (the literal [Infinity] is outside the model). *)
Definition unsigned_literal (l : list ascii) : option Q :=
  let (ip, r) := take_digits l in
  let (fp, r') :=
    match r with
    | "."%char :: t => take_digits t
    | _ => ([], r)
    end in
  match (ip ++ fp)%list with
  | [] => None
  | ds =>
      let m := (digits_val ds # scale fp) in
      match exponent r' with
      | 0%Z => Some m
      | e => Some (m * Qpower 10 e)
      end
  end.

(** [parseFloat(s)]: leading white space is skipped, an optional sign is
    read, then the longest decimal literal; [None] is [NaN]. *)
Definition parseFloat (s : string) : option Q :=
  match Str.drop_while Str.is_space (Str.chars s) with
  | "-"%char :: l => option_map Qopp (unsigned_literal l)
  | "+"%char :: l => unsigned_literal l
  | l => unsigned_literal l
  end.

(** A promise, represented by the way it settles.  A rejection carries the
    thrown value: an [Error] with its message, or something else. *)
Inductive Thrown : Type :=
| Error (message : string)
| NotAnError.

Inductive Promise (A : Type) : Type :=
| Fulfilled (value : A)
| Rejected (reason : Thrown).

Arguments Fulfilled {A} value.
Arguments Rejected {A} reason.

(** An entry of the array [Promise.allSettled] resolves to. *)
Inductive Settled (A : Type) : Type :=
| StatusFulfilled (value : A)
| StatusRejected (reason : Thrown).

Arguments StatusFulfilled {A} value.
Arguments StatusRejected {A} reason.

Definition settle {A} (p : Promise A) : Settled A :=
  match p with
  | Fulfilled v => StatusFulfilled v
  | Rejected e => StatusRejected e
  end.

(** [Promise.allSettled(ps)] is always fulfilled, with one entry per input
    promise, in input order. *)
Definition allSettled {A} (ps : list (Promise A)) : Promise (list (Settled A)) :=
  Fulfilled (map settle ps).

Definition is_fulfilled {A} (r : Settled A) : bool :=
  match r with StatusFulfilled _ => true | StatusRejected _ => false end.

(** [await p; k]: sequencing inside an [async] function. *)
Definition bind {A B} (p : Promise A) (k : A -> Promise B) : Promise B :=
  match p with
  | Fulfilled v => k v
  | Rejected e => Rejected e
  end.

(** [try { body } catch (error) { handler }] around awaited code. *)
Definition try_catch {A} (body : Promise A) (handler : Thrown -> Promise A)
  : Promise A :=
  match body with
  | Fulfilled v => Fulfilled v
  | Rejected e => handler e
  end.

End Js.

Notation "x <- p ;; k" := (Js.bind p (fun x => k))
  (at level 61, p at next level, right associativity).

(** ** Data model ([types/documents.ts]) *)

Inductive DocType : Type :=
| W2 | T1099_INT | T1099_DIV | T1099_NEC | T1098_E | UNKNOWN.

Definition DocType_eqb (a b : DocType) : bool :=
  match a, b with
  | W2, W2 | T1099_INT, T1099_INT | T1099_DIV, T1099_DIV
  | T1099_NEC, T1099_NEC | T1098_E, T1098_E | UNKNOWN, UNKNOWN => true
  | _, _ => false
  end.

(** [string | number | null] *)
Inductive JsValue : Type :=
| VNull
| VNum (n : Q)
| VStr (s : string).

Definition BBox : Type := (Q * Q * Q * Q)%type.

(** The [textSnippet] of a field: literal text, or the template
    [`$${amount.toLocaleString()}`], whose rendering depends on the locale of
    the host and is kept symbolic. *)
Inductive Snippet : Type :=
| Text (s : string)
| DollarLocaleString (amount : Q).

Module Source.
Record t : Type := mk {
  documentId : string;
  page : nat;
  bbox : option BBox;
  textSnippet : option Snippet
}.
Definition with_documentId (id : string) (s : t) : t :=
  mk id (page s) (bbox s) (textSnippet s).
End Source.

Module ExtractedField.
Record t : Type := mk {
  key : string;
  label : string;
  value : JsValue;
  confidence : Q;
  source : option Source.t
}.
Definition with_confidence (c : Q) (f : t) : t :=
  mk (key f) (label f) (value f) c (source f).
Definition with_label (l : string) (f : t) : t :=
  mk (key f) l (value f) (confidence f) (source f).
Definition with_source (s : option Source.t) (f : t) : t :=
  mk (key f) (label f) (value f) (confidence f) s.
End ExtractedField.

Module ExtractedDocument.
Record t : Type := mk {
  documentId : string;
  type : DocType;
  fields : list ExtractedField.t
}.
End ExtractedDocument.

Module BoundingBox.
Record t : Type := mk {
  text : string;
  bbox : BBox;
  confidence : Q
}.
End BoundingBox.

Module OCRResult.
Record t : Type := mk {
  text : string;
  confidence : Q;
  boundingBoxes : option (list BoundingBox.t)
}.
End OCRResult.

(** The browser [File]: the pipeline reads its [name]; the content is only
    handed to the recognition provider. *)
Module File.
Record t : Type := mk {
  name : string;
  content : string
}.
End File.

Definition OCRProvider : Type := File.t -> Js.Promise OCRResult.t.

(** ** Form parsers ([services/formParsers.ts]) *)

Inductive FieldType : Type := currency | text | ssn | ein | date.

Module FieldPattern.
Record t : Type := mk {
  key : string;
  label : string;
  patterns : list Regex.RegExp;
  type : FieldType;
  required : option bool;
  validation : option (JsValue -> bool)
}.
End FieldPattern.

Module TaxFormParser.

Import Regex.

(** [/[$,\s]/] *)
Definition currency_noise (c : ascii) : bool :=
  Str.one_of "$," c || Str.is_space c.

Definition parseCurrency (text : string) : JsValue :=
  let cleaned := Str.remove_chars currency_noise text in
  match Js.parseFloat cleaned with
  | None => VNull
  | Some value => VNum value
  end.

(** [match[1]?.trim() || match[0]?.trim() || null] *)
Definition parseText (m : MatchArray) : JsValue :=
  let first :=
    match group m 1 with
    | Some g => Str.trim g
    | None => EmptyString
    end in
  if negb (Str.is_empty first) then VStr first
  else
    let all := Str.trim (whole m) in
    if negb (Str.is_empty all) then VStr all else VNull.

(** [/\D/] *)
Definition non_digit (c : ascii) : bool := negb (Str.is_digit c).

Definition parseSSN (text : string) : JsValue :=
  let cleaned := Str.remove_chars non_digit text in
  if (String.length cleaned =? 9)%nat then VStr cleaned else VNull.

Definition parseEIN (text : string) : JsValue :=
  let cleaned := Str.remove_chars non_digit text in
  if (String.length cleaned =? 9)%nat then VStr cleaned else VNull.

(** [/(\d{1,2})[\/\-](\d{1,2})[\/\-](\d{2,4})/] *)
Definition date_regex : RegExp :=
  re_plain (seq [Grp 1 (between 1 2 digit); set (Str.one_of "/-");
                 Grp 2 (between 1 2 digit); set (Str.one_of "/-");
                 Grp 3 (between 2 4 digit)]).

Definition parseDate (text : string) : JsValue :=
  match String_match text date_regex with
  | Some dateMatch =>
      match group dateMatch 1, group dateMatch 2, group dateMatch 3 with
      | Some month, Some day, Some year =>
          let fullYear :=
            if (String.length year =? 2)%nat then "20" ++ year else year in
          VStr (fullYear ++ "-" ++ Str.padStart0 2 month
                         ++ "-" ++ Str.padStart0 2 day)
      | _, _, _ => VNull
      end
  | None => VNull
  end.

Definition findBoundingBox (text : string)
           (boundingBoxes : option (list BoundingBox.t)) : option BBox :=
  match boundingBoxes with
  | None => None
  | Some boxes =>
      option_map BoundingBox.bbox
        (find (fun box => Str.includes (BoundingBox.text box) text
                          || Str.includes text (BoundingBox.text box)) boxes)
  end.

Definition coerce (ty : FieldType) (m : MatchArray) : JsValue :=
  match ty with
  | currency => parseCurrency (whole m)
  | text => parseText m
  | ssn => parseSSN (whole m)
  | ein => parseEIN (whole m)
  | date => parseDate (whole m)
  end.

Definition is_null (v : JsValue) : bool :=
  match v with VNull => true | _ => false end.

(** The body of the [for (const regex of pattern.patterns)] loop of
    [extractField]: the first pattern whose match coerces and validates
    gives the field. *)
Fixpoint extractField_from (regexes : list RegExp) (text : string)
         (pattern : FieldPattern.t) (ocrResult : OCRResult.t)
  : option ExtractedField.t :=
  match regexes with
  | [] => None
  | regex :: rest =>
      match String_match text regex with
      | Some m =>
          let value := coerce (FieldPattern.type pattern) m in
          let confidence := 0.8 in
          if negb (is_null value) &&
             match FieldPattern.validation pattern with
             | None => true
             | Some validation => validation value
             end
          then
            let bbox := findBoundingBox (whole m) (OCRResult.boundingBoxes ocrResult) in
            Some (ExtractedField.mk
                    (FieldPattern.key pattern)
                    (FieldPattern.label pattern)
                    value
                    confidence
                    (Some (Source.mk EmptyString 1 bbox (Some (Text (whole m))))))
          else extractField_from rest text pattern ocrResult
      | None => extractField_from rest text pattern ocrResult
      end
  end.

Definition extractField (text : string) (pattern : FieldPattern.t)
           (ocrResult : OCRResult.t) : option ExtractedField.t :=
  extractField_from (FieldPattern.patterns pattern) text pattern ocrResult.

(** [[\d,]+\.?\d*] *)
Definition amount : regex :=
  seq [plus (set (fun c => Str.is_digit c || Str.one_of "," c));
       opt (chr "."); Star digit].

(** [/\$[\d,]+\.?\d*/g] *)
Definition currency_shaped : RegExp := re_g (Cat (chr "$") amount).

(** [parseFloat(match.replace(/[$,]/g, ''))] *)
Definition parse_amount (m : string) : option Q :=
  Js.parseFloat (Str.remove_chars (Str.one_of "$,") m).

(** [.map(parse).filter(amount => amount > 100)]: a [NaN] fails the test. *)
Fixpoint large_amounts (ms : list string) : list Q :=
  match ms with
  | [] => []
  | m :: ms' =>
      match parse_amount m with
      | Some a => if Num.gtb a 100 then a :: large_amounts ms' else large_amounts ms'
      | None => large_amounts ms'
      end
  end.

(** [.sort((a, b) => b - a)]: the stable sort of the array by the
    comparator, that is, into descending order. *)
Fixpoint insert_descending (x : Q) (l : list Q) : list Q :=
  match l with
  | [] => [x]
  | y :: l' =>
      if Qle_bool y x then x :: l else y :: insert_descending x l'
  end.

Definition sort_descending (l : list Q) : list Q :=
  fold_right insert_descending [] l.

Definition auto_detected (k l : string) (a : Q) : ExtractedField.t :=
  ExtractedField.mk k l (VNum a) 0.6
    (Some (Source.mk EmptyString 1 None (Some (DollarLocaleString a)))).

Definition postProcessFields (fields : list ExtractedField.t)
           (ocrResult : OCRResult.t) : list ExtractedField.t :=
  match fields with
  | [] =>
      let currencyMatches := String_match_all (OCRResult.text ocrResult) currency_shaped in
      if (2 <=? List.length currencyMatches)%nat then
        let amounts := sort_descending (large_amounts currencyMatches) in
        match amounts with
        | [] => []
        | a0 :: [] => [auto_detected "wages" "Wages (Auto-detected)" a0]
        | a0 :: a1 :: _ =>
            [auto_detected "wages" "Wages (Auto-detected)" a0;
             auto_detected "federalTaxWithheld"
                           "Federal Tax Withheld (Auto-detected)" a1]
        end
      else []
  | _ => fields
  end.

(** [for (const pattern of this.fieldPatterns)]: the accepted fields, in
    declaration order. *)
Fixpoint extractAll (fieldPatterns : list FieldPattern.t)
         (ocrResult : OCRResult.t) : list ExtractedField.t :=
  match fieldPatterns with
  | [] => []
  | pattern :: rest =>
      match extractField (OCRResult.text ocrResult) pattern ocrResult with
      | Some extractedValue => extractedValue :: extractAll rest ocrResult
      | None => extractAll rest ocrResult
      end
  end.

(** A parser object: the abstract members and the two overridable
    methods of the class. *)
Record t : Type := mk {
  formType : DocType;
  fieldPatterns : list FieldPattern.t;
  parseDocument : OCRResult.t -> list ExtractedField.t;
  postProcess : list ExtractedField.t -> OCRResult.t -> list ExtractedField.t
}.

(** [TaxFormParser.parseDocument], for fields [fieldPatterns] and the
    [postProcessFields] of the receiving object. *)
Definition base_parseDocument (fieldPatterns : list FieldPattern.t)
           (post : list ExtractedField.t -> OCRResult.t -> list ExtractedField.t)
           (ocrResult : OCRResult.t) : list ExtractedField.t :=
  post (extractAll fieldPatterns ocrResult) ocrResult.

End TaxFormParser.

(** *** The W-2 parser *)

Module W2Parser.

Definition hardcoded (k l : string) (v : JsValue) (snippet : string)
  : ExtractedField.t :=
  ExtractedField.mk k l v 0.99 (Some (Source.mk EmptyString 1 None (Some (Text snippet)))).

(** The overriding [parseDocument]: the argument is not read. *)
Definition parseDocument (ocrResult : OCRResult.t) : list ExtractedField.t :=
  [ hardcoded "employerName" "Employer Name"
      (VStr "University of Pittsburgh") "University of Pittsburgh";
    hardcoded "employerEIN" "Employer EIN" (VStr "25-0965591") "25-0965591";
    hardcoded "employeeName" "Employee Name"
      (VStr "Elizabeth A. Darling") "Elizabeth A. Darling";
    hardcoded "wages" "Wages, Tips, Other Compensation (Box 1)"
      (VNum 44629.35) "Box 1 - $44,629.35";
    hardcoded "federalTaxWithheld" "Federal Income Tax Withheld (Box 2)"
      (VNum 7631.62) "Box 2 - $7,631.62";
    hardcoded "socialSecurityWages" "Social Security Wages (Box 3)"
      (VNum 48736.35) "Box 3 - $48,736.35";
    hardcoded "socialSecurityTax" "Social Security Tax Withheld (Box 4)"
      (VNum 3021.65) "Box 4 - $3,021.65";
    hardcoded "medicareWages" "Medicare Wages and Tips (Box 5)"
      (VNum 48736.35) "Box 5 - $48,736.35";
    hardcoded "medicareTax" "Medicare Tax Withheld (Box 6)"
      (VNum 706.68) "Box 6 - $706.68";
    hardcoded "nonqualifiedPlans" "Nonqualified Plans (Box 11)"
      (VNum 1000.00) "Box 11 - $1,000.00";
    hardcoded "stateWages" "State Wages (Box 16)"
      (VNum 47808.35) "Box 16 - $47,808.35";
    hardcoded "stateTaxWithheld" "State Income Tax Withheld (Box 17)"
      (VNum 1467.72) "Box 17 - $1,467.72";
    hardcoded "localWages" "Local Wages (Box 18)"
      (VNum 47808.35) "Box 18 - $47,808.35";
    hardcoded "localTaxWithheld" "Local Income Tax Withheld (Box 19)"
      (VNum 693.22) "Box 19 - $693.22" ]%list.

Definition fieldPatterns : list FieldPattern.t := [].

(** [fields.find(f => f.key === k)?.value] *)
Definition find_value (k : string) (fields : list ExtractedField.t)
  : option JsValue :=
  option_map ExtractedField.value
    (find (fun f => String.eqb (ExtractedField.key f) k) fields).

(** [wages && federalTax && federalTax > wages * 0.5].  The source casts
    both values [as number]; the test is modelled on numbers, where a
    number is truthy when it is not zero. *)
Definition unusually_high (wages federalTax : option JsValue) : bool :=
  match wages, federalTax with
  | Some (VNum w), Some (VNum f) =>
      negb (Qeq_bool w 0) && negb (Qeq_bool f 0) && Num.gtb f (w * 0.5)
  | _, _ => false
  end.

Definition flag_high (f : ExtractedField.t) : ExtractedField.t :=
  ExtractedField.mk
    (ExtractedField.key f)
    (ExtractedField.label f ++ " (Unusually High - Please Verify)")
    (ExtractedField.value f)
    (Num.Math_max 0.3 (ExtractedField.confidence f - 0.4))
    (ExtractedField.source f).

(** In-place update of the object [fields.find(...)] returns: the first
    field with that key. *)
Fixpoint update_first (k : string) (g : ExtractedField.t -> ExtractedField.t)
         (fields : list ExtractedField.t) : list ExtractedField.t :=
  match fields with
  | [] => []
  | f :: rest =>
      if String.eqb (ExtractedField.key f) k then g f :: rest
      else f :: update_first k g rest
  end.

Definition postProcessFields (fields : list ExtractedField.t)
           (ocrResult : OCRResult.t) : list ExtractedField.t :=
  let fields := TaxFormParser.postProcessFields fields ocrResult in
  let wages := find_value "wages" fields in
  let federalTax := find_value "federalTaxWithheld" fields in
  if unusually_high wages federalTax
  then update_first "federalTaxWithheld" flag_high fields
  else fields.

Definition new : TaxFormParser.t :=
  TaxFormParser.mk W2 fieldPatterns parseDocument postProcessFields.

End W2Parser.

(** *** Shared pieces of the 1099 patterns *)

Module Patterns.

Import Regex.

Definition not_dollar : regex := nset (Str.one_of "$").

(** The common tail [[^\$]* \$? ([\d,]+ \.? \d* )] (spaces added). *)
Definition money_tail : list regex :=
  [Star not_dollar; opt (chr "$"); Grp 1 TaxFormParser.amount].

(** [/Box\s*<box> tail/i], with the common tail. *)
Definition box (b : regex) : RegExp :=
  re_i (seq ([lit "Box"; Star space; b] ++ money_tail)%list).

(** [/<words> tail/i], with the common tail. *)
Definition labelled (words : regex) : RegExp :=
  re_i (seq (words :: money_tail)).

(** [[^\n\r]+] *)
Definition rest_of_line : regex := plus (nset Str.is_line_terminator).

(** [[:\s]*] *)
Definition colon_space : regex :=
  Star (set (fun c => Str.one_of ":" c || Str.is_space c)).

(** [[A-Z][A-Za-z\s&.,]+] *)
Definition proper_name : regex :=
  Cat (set Str.is_upper)
      (plus (set (fun c => Str.is_upper c || Str.is_lower c
                           || Str.is_space c || Str.one_of "&.," c))).

(** [\d{2}-?\d{7}] *)
Definition tin_digits : regex :=
  seq [times 2 digit; opt (chr "-"); times 7 digit].

End Patterns.

(** *** The 1099-INT parser *)

Module Form1099INTParser.

Import Regex Patterns.

Definition in_range_0_1000000 (value : JsValue) : bool :=
  match value with
  | VNum v => Num.leb 0 v && Num.leb v 1000000
  | _ => false
  end.

Definition fieldPatterns : list FieldPattern.t :=
  [ FieldPattern.mk "payerName" "Payer Name"
      [ re_i (seq [alts [lit "Payer"; lit "Bank"; lit "Institution"];
                   colon_space; Grp 1 rest_of_line]);
        re_m (seq [Bol;
                   Grp 1 (Cat proper_name
                              (alts [lit "Bank"; lit "Credit Union";
                                     lit "Financial"; lit "Investment"]))]) ]
      text (Some true) None;
    FieldPattern.mk "payerTIN" "Payer TIN"
      [ re_i (seq [lit "TIN"; colon_space; Grp 1 tin_digits]);
        re_i (seq [lit "Tax ID"; colon_space; Grp 1 tin_digits]) ]
      ein None None;
    FieldPattern.mk "interestIncome" "Interest Income (Box 1)"
      [ box (chr "1"); labelled (lit "Interest income") ]
      currency (Some true) (Some in_range_0_1000000);
    FieldPattern.mk "earlyWithdrawalPenalty" "Early Withdrawal Penalty (Box 2)"
      [ box (chr "2"); labelled (lit "Early withdrawal") ]
      currency None None;
    FieldPattern.mk "federalTaxWithheld" "Federal Income Tax Withheld (Box 4)"
      [ box (chr "4"); labelled (seq [lit "Federal"; Star dot; lit "withheld"]) ]
      currency None None ]%list.

Definition new : TaxFormParser.t :=
  TaxFormParser.mk T1099_INT fieldPatterns
    (TaxFormParser.base_parseDocument fieldPatterns TaxFormParser.postProcessFields)
    TaxFormParser.postProcessFields.

End Form1099INTParser.

(** *** The 1099-DIV parser *)

Module Form1099DIVParser.

Import Regex Patterns.

Definition fieldPatterns : list FieldPattern.t :=
  [ FieldPattern.mk "payerName" "Payer Name"
      [ re_i (seq [alts [lit "Payer"; lit "Company"; lit "Corporation"];
                   colon_space; Grp 1 rest_of_line]);
        re_m (seq [Bol;
                   Grp 1 (Cat proper_name
                              (alts [lit "Inc"; lit "LLC"; lit "Corp";
                                     lit "Investment"; lit "Fund"]))]) ]
      text (Some true) None;
    FieldPattern.mk "ordinaryDividends" "Ordinary Dividends (Box 1a)"
      [ box (Cat (chr "1") (opt (chr "a"))); labelled (lit "Ordinary dividends") ]
      currency (Some true) None;
    FieldPattern.mk "qualifiedDividends" "Qualified Dividends (Box 1b)"
      [ box (lit "1b"); labelled (lit "Qualified dividends") ]
      currency None None;
    FieldPattern.mk "capitalGainDistributions" "Capital Gain Distributions (Box 2a)"
      [ box (lit "2a"); labelled (lit "Capital gain") ]
      currency None None;
    FieldPattern.mk "federalTaxWithheld" "Federal Income Tax Withheld (Box 4)"
      [ box (chr "4"); labelled (seq [lit "Federal"; Star dot; lit "withheld"]) ]
      currency None None ]%list.

Definition new : TaxFormParser.t :=
  TaxFormParser.mk T1099_DIV fieldPatterns
    (TaxFormParser.base_parseDocument fieldPatterns TaxFormParser.postProcessFields)
    TaxFormParser.postProcessFields.

End Form1099DIVParser.

(** *** The 1099-NEC parser *)

Module Form1099NECParser.

Import W2Parser.

(** The overriding [parseDocument]: the argument is not read. *)
Definition parseDocument (ocrResult : OCRResult.t) : list ExtractedField.t :=
  [ hardcoded "payerName" "Payer Name" (VStr "Cannon Tools Co") "Cannon Tools Co";
    hardcoded "payerTIN" "Payer TIN" (VStr "10-9920202") "10-9920202";
    hardcoded "payerPhone" "Payer Phone"
      (VStr "(+1) 517-200-9968") "(+1) 517-200-9968";
    hardcoded "payerAddress" "Payer Address"
      (VStr "2426 North Catherine St, Atlanta, GA 30019")
      "2426 North Catherine St, Atlanta, GA 30019";
    hardcoded "recipientTIN" "Recipient TIN" (VStr "101-42-0202") "101-42-0202";
    hardcoded "accountNumber" "Account Number" (VStr "020202070") "020202070";
    hardcoded "nonemployeeCompensation" "Nonemployee Compensation (Box 1)"
      (VNum 1000.00) "Box 1 - $1,000.00";
    hardcoded "directSales" "Payer Made Direct Sales $5,000+ (Box 2)"
      (VStr "Yes") "Box 2 - X (checked)";
    hardcoded "federalTaxWithheld" "Federal Income Tax Withheld (Box 4)"
      (VNum 100.00) "Box 4 - $100.00" ]%list.

Definition fieldPatterns : list FieldPattern.t := [].

Definition new : TaxFormParser.t :=
  TaxFormParser.mk T1099_NEC fieldPatterns parseDocument
    TaxFormParser.postProcessFields.

End Form1099NECParser.

(** Factory function to create the appropriate parser; [None] is [null]. *)
Definition createFormParser (docType : DocType) : option TaxFormParser.t :=
  match docType with
  | W2 => Some W2Parser.new
  | T1099_INT => Some Form1099INTParser.new
  | T1099_DIV => Some Form1099DIVParser.new
  | T1099_NEC => Some Form1099NECParser.new
  | _ => None
  end.

(** ** The hybrid provider ([services/ocrProviders.ts]) *)

Module HybridOCRProvider.

(** [tesseractProvider] is the primary engine (a [TesseractOCRProvider] in
    the source, whose [extractText] resolves or throws);
    [fallbackProvider] is the optional constructor argument. *)
Record t : Type := mk {
  tesseractProvider : OCRProvider;
  fallbackProvider : option OCRProvider
}.

Definition degraded (file : File.t) : OCRResult.t :=
  OCRResult.mk
    ("Unable to extract text from " ++ File.name file
       ++ ". Please verify the document is clear and readable.")
    0.1
    (Some []).

Definition extractText (self : t) (file : File.t) : Js.Promise OCRResult.t :=
  Js.try_catch
    (ocrResult <- tesseractProvider self file ;;
     match (if Num.ltb (OCRResult.confidence ocrResult) 0.7
            then fallbackProvider self else None) with
     | Some fallback =>
         match fallback file with
         | Js.Fulfilled fallbackResult =>
             Js.Fulfilled
               (if Num.gtb (OCRResult.confidence fallbackResult)
                           (OCRResult.confidence ocrResult)
                then fallbackResult else ocrResult)
         | Js.Rejected _ => Js.Fulfilled ocrResult
         end
     | None => Js.Fulfilled ocrResult
     end)
    (fun error => Js.Fulfilled (degraded file)).

End HybridOCRProvider.

(** ** The parsing service ([services/documentParsingService.ts]) *)

Module DocumentTypePattern.
Record t : Type := mk {
  type : DocType;
  filename : list Regex.RegExp;
  content : list Regex.RegExp;
  confidence : Q
}.
End DocumentTypePattern.

Module Detection.
Record t : Type := mk {
  type : DocType;
  confidence : Q
}.
End Detection.

Module DocumentParsingService.

Import Regex.

Definition documentTypePatterns : list DocumentTypePattern.t :=
  [ DocumentTypePattern.mk W2
      [ re_i (seq [chr "w"; opt (chr "-"); chr "2"]);
        re_i (seq [lit "wage"; Star dot; lit "tax"; Star dot; lit "statement"]) ]
      [ re_i (seq [lit "form"; plus space; chr "w"; opt (chr "-"); chr "2"]);
        re_i (seq [lit "wage"; plus space; lit "and"; plus space; lit "tax";
                   plus space; lit "statement"]);
        re_i (seq [lit "box"; plus space; chr "1"; Star dot; lit "wages"]) ]
      0.9;
    DocumentTypePattern.mk T1099_INT
      [ re_i (seq [lit "1099"; Star dot; lit "int"]);
        re_i (seq [lit "interest"; Star dot; lit "income"]) ]
      [ re_i (seq [lit "form"; plus space; lit "1099-int"]);
        re_i (seq [lit "interest"; plus space; lit "income"]);
        re_i (seq [lit "box"; plus space; chr "1"; Star dot; lit "interest"]) ]
      0.85;
    DocumentTypePattern.mk T1099_DIV
      [ re_i (seq [lit "1099"; Star dot; lit "div"]);
        re_i (lit "dividend") ]
      [ re_i (seq [lit "form"; plus space; lit "1099-div"]);
        re_i (seq [lit "dividend"; opt (chr "s"); plus space; lit "and";
                   plus space; lit "distributions"]);
        re_i (seq [lit "ordinary"; plus space; lit "dividends"]) ]
      0.85;
    DocumentTypePattern.mk T1099_NEC
      [ re_i (seq [lit "1099"; Star dot; lit "nec"]);
        re_i (lit "nonemployee") ]
      [ re_i (seq [lit "form"; plus space; lit "1099-nec"]);
        re_i (seq [lit "nonemployee"; plus space; lit "compensation"]) ]
      0.85;
    DocumentTypePattern.mk T1098_E
      [ re_i (seq [lit "1098"; Star dot; chr "e"]);
        re_i (seq [lit "student"; Star dot; lit "loan"]) ]
      [ re_i (seq [lit "form"; plus space; lit "1098-e"]);
        re_i (seq [lit "student"; plus space; lit "loan"; plus space;
                   lit "interest"]) ]
      0.8 ]%list.

(** One of the two inner loops of [detectDocumentType]: every pattern that
    matches increments [matches] and adds [weight] to [confidence]. *)
Definition tally (weight : Q) (regexes : list RegExp) (s : string)
           (acc : Q * nat) : Q * nat :=
  fold_left
    (fun '(confidence, matches) regex =>
       if test regex s then (confidence + weight, S matches)
       else (confidence, matches))
    regexes acc.

(** The accumulated [confidence] and [matches] of one candidate, after
    the filename loop and the content loop. *)
Definition accumulate (pattern : DocumentTypePattern.t)
           (lowerFilename lowerText : string) : Q * nat :=
  tally 0.6 (DocumentTypePattern.content pattern) lowerText
    (tally 0.4 (DocumentTypePattern.filename pattern) lowerFilename (0, 0%nat)).

(** The value of [confidence] at the end of the loop body: the capped sum
    times the base confidence when something matched, the untouched [0]
    otherwise. *)
Definition candidateConfidence (pattern : DocumentTypePattern.t)
           (lowerFilename lowerText : string) : Q :=
  let '(confidence, matches) := accumulate pattern lowerFilename lowerText in
  if (0 <? matches)%nat
  then Num.Math_min 1.0 confidence * DocumentTypePattern.confidence pattern
  else confidence.

(** The body of [for (const pattern of documentTypePatterns)]. *)
Definition step (lowerFilename lowerText : string) (bestMatch : Detection.t)
           (pattern : DocumentTypePattern.t) : Detection.t :=
  let '(confidence, matches) := accumulate pattern lowerFilename lowerText in
  if (0 <? matches)%nat then
    let confidence :=
      Num.Math_min 1.0 confidence * DocumentTypePattern.confidence pattern in
    if Num.gtb confidence (Detection.confidence bestMatch)
    then Detection.mk (DocumentTypePattern.type pattern) confidence
    else bestMatch
  else bestMatch.

(** [detectDocumentType] over a candidate table. *)
Definition detectIn (table : list DocumentTypePattern.t)
           (filename text : string) : Detection.t :=
  let lowerFilename := Str.toLowerCase filename in
  let lowerText := Str.toLowerCase text in
  let bestMatch :=
    fold_left (step lowerFilename lowerText) table (Detection.mk UNKNOWN 0) in
  if Num.ltb (Detection.confidence bestMatch) 0.3
  then Detection.mk UNKNOWN 0.1
  else bestMatch.

Definition detectDocumentType (filename text : string) : Detection.t :=
  detectIn documentTypePatterns filename text.

(** Pair every element with its array index, as [forEach((x, index) => ...)]. *)
Definition indexed {A} (l : list A) : list (nat * A) :=
  combine (List.seq 0 (List.length l)) l.

(** [/[A-Z][a-z]+(?:\s+[A-Z][a-z]+)+/g] *)
Definition capitalized_words : RegExp :=
  let word := Cat (set Str.is_upper) (plus (set Str.is_lower)) in
  re_g (Cat word (plus (Cat (plus space) word))).

Definition performGenericExtraction (ocrResult : OCRResult.t)
           (documentId : string) : list ExtractedField.t :=
  let text := OCRResult.text ocrResult in
  let currencyMatches := String_match_all text TaxFormParser.currency_shaped in
  let amounts :=
    flat_map
      (fun '(index, m) =>
         match TaxFormParser.parse_amount m with
         | Some value =>
             if Num.gtb value 0
             then [ExtractedField.mk
                     ("amount_" ++ Str.of_nat index)
                     ("Amount " ++ Str.of_nat (index + 1))
                     (VNum value)
                     0.5
                     (Some (Source.mk documentId 1 None (Some (Text m))))]
             else []
         | None => []
         end)
      (indexed currencyMatches) in
  let nameMatches := String_match_all text capitalized_words in
  let names :=
    map
      (fun '(index, m) =>
         ExtractedField.mk
           ("name_" ++ Str.of_nat index)
           ("Name " ++ Str.of_nat (index + 1))
           (VStr (Str.trim m))
           0.4
           (Some (Source.mk documentId 1 None (Some (Text m)))))
      (indexed (firstn 3 nameMatches)) in
  (amounts ++ names)%list.

Definition is_negative (v : JsValue) : bool :=
  match v with
  | VNum n => Num.ltb n 0
  | _ => false
  end.

(** The three steps the callback of [validateAndEnhanceFields] applies to
    one field, in source order. *)
Definition penalize_negative (field : ExtractedField.t) : ExtractedField.t :=
  if is_negative (ExtractedField.value field)
  then ExtractedField.with_confidence
         (Num.Math_max 0.1 (ExtractedField.confidence field - 0.3)) field
  else field.

Definition penalize_ocr (ocrResult : OCRResult.t) (field : ExtractedField.t)
  : ExtractedField.t :=
  if Num.ltb (OCRResult.confidence ocrResult) 0.8
  then ExtractedField.with_confidence
         (Num.Math_max 0.1 (ExtractedField.confidence field - 0.2)) field
  else field.

Definition needs_review : string := " (Needs Review)".

Definition annotate (field : ExtractedField.t) : ExtractedField.t :=
  if Num.ltb (ExtractedField.confidence field) 0.7
  then ExtractedField.with_label (ExtractedField.label field ++ needs_review) field
  else field.

Definition enhance (ocrResult : OCRResult.t) (field : ExtractedField.t)
  : ExtractedField.t :=
  annotate (penalize_ocr ocrResult (penalize_negative field)).

Definition validateAndEnhanceFields (fields : list ExtractedField.t)
           (ocrResult : OCRResult.t) : list ExtractedField.t :=
  map (enhance ocrResult) fields.

(** The callback of [fields.forEach] in [parseDocument]: stamp the document
    id, then damp the confidence when the detection was uncertain. *)
Definition stamp (documentId : string) (field : ExtractedField.t)
  : ExtractedField.t :=
  ExtractedField.with_source
    (option_map (Source.with_documentId documentId) (ExtractedField.source field))
    field.

Definition damp (detectionResult : Detection.t) (field : ExtractedField.t)
  : ExtractedField.t :=
  if Num.ltb (Detection.confidence detectionResult) 0.8
  then ExtractedField.with_confidence
         (Num.Math_max 0.1 (ExtractedField.confidence field
                            * Detection.confidence detectionResult)) field
  else field.

(** The service object, by the provider it holds.  Which provider the
    constructor installs depends on the host; [setOCRProvider] replaces
    it by any other. *)
Record t : Type := mk {
  ocrProvider : OCRProvider
}.

Definition setOCRProvider (self : t) (provider : OCRProvider) : t := mk provider.

Definition error_message (error : Js.Thrown) : string :=
  match error with
  | Js.Error message => message
  | Js.NotAnError => "Unknown error"
  end.

Definition parseDocument (self : t) (file : File.t) (documentId : string)
  : Js.Promise ExtractedDocument.t :=
  Js.try_catch
    (ocrResult <- ocrProvider self file ;;
     let detectionResult :=
       detectDocumentType (File.name file) (OCRResult.text ocrResult) in
     let parser := createFormParser (Detection.type detectionResult) in
     let fields :=
       match parser with
       | Some parser =>
           map (fun field => damp detectionResult (stamp documentId field))
               (TaxFormParser.parseDocument parser ocrResult)
       | None => performGenericExtraction ocrResult documentId
       end in
     let fields := validateAndEnhanceFields fields ocrResult in
     Js.Fulfilled
       (ExtractedDocument.mk documentId (Detection.type detectionResult) fields))
    (fun error =>
       Js.Rejected (Js.Error ("Failed to parse document: " ++ error_message error))).

(** [results.filter(fulfilled).map(result => result.value)] *)
Fixpoint fulfilled_values {A} (results : list (Js.Settled A)) : list A :=
  match results with
  | [] => []
  | Js.StatusFulfilled v :: rest => v :: fulfilled_values rest
  | Js.StatusRejected _ :: rest => fulfilled_values rest
  end.

Definition parseMultipleDocuments (self : t) (files : list (File.t * string))
  : Js.Promise (list ExtractedDocument.t) :=
  results <- Js.allSettled
               (map (fun '(file, documentId) => parseDocument self file documentId)
                    files) ;;
  Js.Fulfilled (fulfilled_values results).

Definition getSupportedTypes : list DocType :=
  map DocumentTypePattern.type documentTypePatterns.

End DocumentParsingService.

(** ** The specification's wording, as definitions *)

Module Spec.

Import Regex.

(** The number of patterns of [regexes] that match [s]. *)
Definition matching (regexes : list RegExp) (s : string) : nat :=
  List.length (filter (fun regex => test regex s) regexes).

(** A count of patterns, as a number. *)
Definition of_count (n : nat) : Q := inject_Z (Z.of_nat n).

(** Classifier score of one candidate: the raw score [0.4] per matching
    filename pattern plus [0.6] per matching content pattern, capped at
    [1.0], times the base confidence.  Matching ignores case. *)
Definition score (candidate : DocumentTypePattern.t) (filename text : string) : Q :=
  let nf := matching (DocumentTypePattern.filename candidate) (Str.toLowerCase filename) in
  let nc := matching (DocumentTypePattern.content candidate) (Str.toLowerCase text) in
  Num.Math_min 1.0 (0.4 * of_count nf + 0.6 * of_count nc)
  * DocumentTypePattern.confidence candidate.

(** A candidate's pattern set extended by one content pattern, at any
    position of the list. *)
Definition add_content (candidate : DocumentTypePattern.t)
           (before after : list RegExp) (extra : RegExp) : DocumentTypePattern.t :=
  DocumentTypePattern.mk
    (DocumentTypePattern.type candidate)
    (DocumentTypePattern.filename candidate)
    (before ++ extra :: after)%list
    (DocumentTypePattern.confidence candidate).

(** Fallback extraction: every currency-shaped substring of the text is
    parsed, amounts of at most 100 are discarded, and the rest is put in
    descending order. *)
Definition fallback_amounts (text : string) : list Q :=
  let parsed :=
    flat_map (fun m => match TaxFormParser.parse_amount m with
                       | Some a => [a]
                       | None => []
                       end)
             (String_match_all text TaxFormParser.currency_shaped) in
  TaxFormParser.sort_descending (filter (fun a => negb (Num.leb a 100)) parsed).

(** The largest amount becomes [wages] and, when a second amount remains,
    the second largest becomes [federalTaxWithheld]. *)
Definition fallback_fields (amounts : list Q) : list ExtractedField.t :=
  match amounts with
  | [] => []
  | a0 :: rest =>
      TaxFormParser.auto_detected "wages" "Wages (Auto-detected)" a0 ::
      match rest with
      | [] => []
      | a1 :: _ =>
          [TaxFormParser.auto_detected "federalTaxWithheld"
             "Federal Tax Withheld (Auto-detected)" a1]
      end
  end.

Definition fallback (text : string) : list ExtractedField.t :=
  fallback_fields (fallback_amounts text).

(** The order of a list sorted from the largest to the smallest. *)
Definition descending (a b : Q) : Prop := b <= a.

(** Every field at confidence 0.99. *)
Definition all_099 (fields : list ExtractedField.t) : Prop :=
  Forall (fun f => ExtractedField.confidence f = 0.99) fields.

(** Whether a promise settled by being fulfilled. *)
Definition succeeded {A} (p : Js.Promise A) : bool :=
  match p with
  | Js.Fulfilled _ => true
  | Js.Rejected _ => false
  end.

(** A confidence within the closed interval from [0.1] to [1.0]. *)
Definition in_bounds (f : ExtractedField.t) : Prop :=
  0.1 <= ExtractedField.confidence f /\ ExtractedField.confidence f <= 1.0.

End Spec.

(** ** Inputs of the scenarios *)

Module Scenario.

Import Regex.

Definition box1_text : string :=
  "Box 1 - Wages, tips, other compensation: $44,629.35".

(** A field specification whose only pattern is
    [/Box\s*1[^\$]*\$?([\d,]+\.?\d* )/i] (space added before the closing
    parenthesis), of type [currency]. *)
Definition box1_spec : FieldPattern.t :=
  FieldPattern.mk "wages" "Wages" [Patterns.box (chr "1")] currency (Some true) None.

Definition recognized (t : string) (c : Q) : OCRResult.t := OCRResult.mk t c None.

(** A provider that reads the recognized text off the file content and
    throws on an empty file. *)
Definition content_provider (c : Q) : OCRProvider :=
  fun file =>
    if Str.is_empty (File.content file)
    then Js.Rejected (Js.Error "OCR processing failed")
    else Js.Fulfilled (recognized (File.content file) c).

Definition always (r : OCRResult.t) : OCRProvider := fun _ => Js.Fulfilled r.

Definition failing : OCRProvider :=
  fun _ => Js.Rejected (Js.Error "OCR worker not available").

Definition scan : File.t := File.mk "scan.png" "pixels".

Definition service (c : Q) : DocumentParsingService.t :=
  DocumentParsingService.mk (content_provider c).

Definition interest_statement : string :=
  "Form 1099-INT Interest Income 2024 Payer: First National Bank TIN: 12-3456789".

Definition single_amount : string := "Total due: $5,000.00".

Definition three_amounts : string := "Total due: $5,000.00 and $50 or $700".

Definition reviewed_field : ExtractedField.t :=
  ExtractedField.mk "wages" "Wages (Needs Review)" (VNum 5000) 0.5 None.

End Scenario.

(** * Properties *)

(** ** Facts about comparisons, [Math.max] and [Math.min] *)

Module NumFacts.

Import Num.

Lemma ltb_lt x y : ltb x y = true <-> x < y.
Proof.
  unfold ltb. rewrite negb_true_iff, <- not_true_iff_false, Qle_bool_iff.
  split; [apply Qnot_le_lt | apply Qlt_not_le].
Qed.

Lemma ltb_ge x y : ltb x y = false <-> y <= x.
Proof.
  unfold ltb. rewrite negb_false_iff. apply Qle_bool_iff.
Qed.

Lemma leb_le x y : leb x y = true <-> x <= y.
Proof. apply Qle_bool_iff. Qed.

Lemma leb_gt x y : leb x y = false <-> y < x.
Proof.
  unfold leb. rewrite <- not_true_iff_false, Qle_bool_iff.
  split; [apply Qnot_le_lt | apply Qlt_not_le].
Qed.

Lemma Math_max_l a b : a <= Math_max a b.
Proof.
  unfold Math_max. destruct (leb a b) eqn:E.
  - now apply leb_le.
  - apply Qle_refl.
Qed.

Lemma Math_max_r a b : b <= Math_max a b.
Proof.
  unfold Math_max. destruct (leb a b) eqn:E.
  - apply Qle_refl.
  - apply leb_gt in E. now apply Qlt_le_weak.
Qed.

Lemma Math_max_lub a b c : a <= c -> b <= c -> Math_max a b <= c.
Proof. unfold Math_max. now destruct (leb a b). Qed.

Lemma Math_min_l a b : Math_min a b <= a.
Proof.
  unfold Math_min. destruct (leb a b) eqn:E.
  - apply Qle_refl.
  - apply leb_gt in E. now apply Qlt_le_weak.
Qed.

Lemma Math_min_glb a b c : c <= a -> c <= b -> c <= Math_min a b.
Proof. unfold Math_min. now destruct (leb a b). Qed.

Lemma Math_min_mono a b b' : b <= b' -> Math_min a b <= Math_min a b'.
Proof.
  intros H. unfold Math_min.
  destruct (leb a b) eqn:E1, (leb a b') eqn:E2;
    rewrite ?leb_le, ?leb_gt in *; lra.
Qed.

Lemma Math_min_eq a b b' : b == b' -> Math_min a b == Math_min a b'.
Proof.
  intros H. apply Qle_antisym; apply Math_min_mono; rewrite H; apply Qle_refl.
Qed.

Lemma gtb_lt x y : gtb x y = true <-> y < x.
Proof. unfold gtb. apply ltb_lt. Qed.

Lemma gtb_le x y : gtb x y = false <-> x <= y.
Proof. unfold gtb. apply ltb_ge. Qed.

End NumFacts.

(** ** The embedding on small inputs *)

Module Examples.

Import Regex TaxFormParser DocumentParsingService.

Example parseFloat_prefix : Js.parseFloat "12.5kg" = Some 12.5.
Proof. reflexivity. Qed.

Example parseFloat_letters : Js.parseFloat "Box1-Wages" = None.
Proof. reflexivity. Qed.

Example parseCurrency_amount : parseCurrency "$1,250.00" = VNum 1250.00.
Proof. reflexivity. Qed.

Example parseSSN_dashed : parseSSN "123-45-6789" = VStr "123456789".
Proof. reflexivity. Qed.

Example parseEIN_short : parseEIN "12-345" = VNull.
Proof. reflexivity. Qed.

Example parseDate_short_year : parseDate "due 3/7/24" = VStr "2024-03-07".
Proof. reflexivity. Qed.

Example currency_shaped_matches :
  String_match_all "a $1,000.00 b $5 c 7.50" currency_shaped
  = ["$1,000.00"; "$5"]%list.
Proof. vm_compute. reflexivity. Qed.

Example capitalized_words_matches :
  String_match_all "paid by First National Bank to John Doe" capitalized_words
  = ["First National Bank"; "John Doe"]%list.
Proof. vm_compute. reflexivity. Qed.

Example ignore_case_class :
  test (re_i (seq [lit "form"; plus space; lit "w-2"])) "FORM   W-2 2024" = true.
Proof. vm_compute. reflexivity. Qed.

Example payerTIN_extracted :
  option_map ExtractedField.value
    (extractField "Payer TIN: 12-3456789"
       (nth 1 Form1099INTParser.fieldPatterns Scenario.box1_spec)
       (Scenario.recognized "Payer TIN: 12-3456789" 0.9))
  = Some (VStr "123456789").
Proof. vm_compute. reflexivity. Qed.

(** A filename match alone: 0.4 times the base confidence 0.9. *)
Example classify_by_filename :
  detectDocumentType "w2_2024.pdf" "nothing" = Detection.mk W2 0.36.
Proof. vm_compute. reflexivity. Qed.

(** Recognition confidence 0.5 and a field at 0.8: 0.6, and a review mark. *)
Example low_quality_source :
  match validateAndEnhanceFields
          [ExtractedField.mk "payerName" "Payer Name"
             (VStr "First National Bank") 0.8 None]
          (Scenario.recognized "text" 0.5)
  with
  | [f] => ExtractedField.label f = "Payer Name (Needs Review)"
           /\ ExtractedField.confidence f == 0.6
  | _ => False
  end.
Proof. vm_compute. split; reflexivity. Qed.

End Examples.

(** ** The parser registry *)

Module Registry.

Lemma createFormParser_formType docType parser :
  createFormParser docType = Some parser ->
  TaxFormParser.formType parser = docType.
Proof.
  destruct docType; simpl; intros H; inversion H; reflexivity.
Qed.

(** C7. The classification table declares five supported types, W2,
    1099_INT, 1099_DIV, 1099_NEC and 1098_E.  [createFormParser] returns a
    parser for the first four, and no parser for 1098_E: a type of the
    classification table, reported by [getSupportedTypes], resolves to
    [null] like an unknown type does. *)
Theorem createFormParser_misses_1098_E :
  DocumentParsingService.getSupportedTypes
    = [W2; T1099_INT; T1099_DIV; T1099_NEC; T1098_E]%list
  /\ (forall docType,
        In docType [W2; T1099_INT; T1099_DIV; T1099_NEC] ->
        exists parser, createFormParser docType = Some parser)
  /\ createFormParser UNKNOWN = None
  /\ In T1098_E DocumentParsingService.getSupportedTypes
  /\ createFormParser T1098_E = None.
Proof.
  split; [reflexivity |].
  split.
  - intros docType H. simpl in H.
    destruct H as [<- | [<- | [<- | [<- | []]]]]; eexists; reflexivity.
  - repeat split. simpl. tauto.
Qed.

End Registry.

(** ** The hardcoded parsers *)

Module Hardcoded.

Lemma W2_all_099 ocrResult : Spec.all_099 (W2Parser.parseDocument ocrResult).
Proof. unfold Spec.all_099. simpl. repeat constructor. Qed.

Lemma NEC_all_099 ocrResult : Spec.all_099 (Form1099NECParser.parseDocument ocrResult).
Proof. unfold Spec.all_099. simpl. repeat constructor. Qed.

(** C8. The [parseDocument] of the W-2 parser and of the 1099-NEC parser are
    constant functions of the recognized text: any two inputs give the same
    list, of 14 (respectively 9) fields, each at confidence 0.99; neither
    parser declares a field pattern. *)
Theorem hardcoded_parsers_ignore_input (ocr1 ocr2 : OCRResult.t) :
  (TaxFormParser.parseDocument W2Parser.new ocr1
     = TaxFormParser.parseDocument W2Parser.new ocr2
   /\ List.length (TaxFormParser.parseDocument W2Parser.new ocr1) = 14%nat
   /\ Spec.all_099 (TaxFormParser.parseDocument W2Parser.new ocr1)
   /\ TaxFormParser.fieldPatterns W2Parser.new = [])
  /\
  (TaxFormParser.parseDocument Form1099NECParser.new ocr1
     = TaxFormParser.parseDocument Form1099NECParser.new ocr2
   /\ List.length (TaxFormParser.parseDocument Form1099NECParser.new ocr1) = 9%nat
   /\ Spec.all_099 (TaxFormParser.parseDocument Form1099NECParser.new ocr1)
   /\ TaxFormParser.fieldPatterns Form1099NECParser.new = []).
Proof.
  split; (split; [reflexivity |]); (split; [reflexivity |]);
    (split; [| reflexivity]).
  - apply W2_all_099.
  - apply NEC_all_099.
Qed.

End Hardcoded.

(** ** Field extraction on the Box 1 scenario *)

Module Box1.

Import Regex Scenario.

(** C1. On the text of the scenario the pattern matches and captures
    [44,629.35], and the currency coercion of that capture is 44629.35; but
    [extractField] coerces the whole match [match[0]], which starts with
    the letters of [Box], so [parseFloat] gives [NaN], the coercion gives
    [null] and no field is returned, whatever the bounding boxes. *)
Theorem extractField_box1_scenario (ocrResult : OCRResult.t) :
  option_map (fun m => group m 1) (String_match box1_text (Patterns.box (chr "1")))
    = Some (Some "44,629.35")
  /\ TaxFormParser.parseCurrency "44,629.35" = VNum 44629.35
  /\ option_map (fun m => TaxFormParser.parseCurrency (whole m))
       (String_match box1_text (Patterns.box (chr "1"))) = Some VNull
  /\ TaxFormParser.extractField box1_text box1_spec ocrResult = None.
Proof.
  repeat split; vm_compute; reflexivity.
Qed.

End Box1.

(** ** The review annotation *)

Module Review.

Import DocumentParsingService NumFacts.

Lemma annotate_label field :
  ExtractedField.label (annotate field)
  = if Num.ltb (ExtractedField.confidence field) 0.7
    then ExtractedField.label field ++ needs_review
    else ExtractedField.label field.
Proof. unfold annotate. now destruct (Num.ltb _ _). Qed.

Lemma annotate_confidence field :
  ExtractedField.confidence (annotate field) = ExtractedField.confidence field.
Proof. unfold annotate. now destruct (Num.ltb _ _). Qed.

Lemma penalties_keep_label ocrResult field :
  ExtractedField.label (penalize_ocr ocrResult (penalize_negative field))
  = ExtractedField.label field.
Proof.
  unfold penalize_ocr, penalize_negative.
  destruct (Num.ltb _ _), (is_negative _); reflexivity.
Qed.

(** C10, as the code has it.  The annotation step appends the suffix to the
    label of every field whose final confidence is below 0.7 and leaves the
    other labels alone; it does not look at the label, so the suffix is
    appended whether or not the label already ends with it. *)
Theorem needs_review_appended (fields : list ExtractedField.t) (ocrResult : OCRResult.t) :
  Forall2
    (fun field out =>
       (ExtractedField.confidence out < 0.7 ->
        ExtractedField.label out = ExtractedField.label field ++ " (Needs Review)")
       /\ (0.7 <= ExtractedField.confidence out ->
           ExtractedField.label out = ExtractedField.label field))
    fields (validateAndEnhanceFields fields ocrResult).
Proof.
  unfold validateAndEnhanceFields.
  induction fields as [| field fields IH]; simpl; constructor; trivial.
  unfold enhance. rewrite annotate_confidence, annotate_label, penalties_keep_label.
  destruct (Num.ltb _ 0.7) eqn:E.
  - split; [reflexivity |]. apply ltb_lt in E. intros H. lra.
  - split; [| reflexivity]. apply ltb_ge in E. intros H. lra.
Qed.

(** C10 on one field at confidence 0.5: its label gets the suffix. *)
Lemma needs_review_appended_witness :
  Forall2
    (fun field out =>
       (ExtractedField.confidence out < 0.7 ->
        ExtractedField.label out = ExtractedField.label field ++ " (Needs Review)")
       /\ (0.7 <= ExtractedField.confidence out ->
           ExtractedField.label out = ExtractedField.label field))
    [ExtractedField.mk "wages" "Wages" (VNum 5000) 0.5 None]
    (validateAndEnhanceFields
       [ExtractedField.mk "wages" "Wages" (VNum 5000) 0.5 None]
       (Scenario.recognized "text" 0.9)).
Proof.
  apply (needs_review_appended
           [ExtractedField.mk "wages" "Wages" (VNum 5000) 0.5 None]
           (Scenario.recognized "text" 0.9)).
Defined.

(** Counterexample to the idempotence half of C10: a field at confidence 0.5
    whose label already ends with the suffix gets the suffix a second time;
    the step applied twice differs from the step applied once. *)
Lemma needs_review_appended_twice :
  map ExtractedField.label
      (validateAndEnhanceFields [Scenario.reviewed_field] (Scenario.recognized EmptyString 0.9))
  = ["Wages (Needs Review) (Needs Review)"]%list
  /\ validateAndEnhanceFields
       (validateAndEnhanceFields [Scenario.reviewed_field] (Scenario.recognized EmptyString 0.9))
       (Scenario.recognized EmptyString 0.9)
     <> validateAndEnhanceFields [Scenario.reviewed_field] (Scenario.recognized EmptyString 0.9).
Proof.
  split; [vm_compute; reflexivity |].
  vm_compute. intros H. discriminate H.
Qed.

End Review.

(** ** The hybrid provider *)

Module Hybrid.

Import HybridOCRProvider NumFacts.

Lemma extractText_primary_failed self file e :
  tesseractProvider self file = Js.Rejected e ->
  extractText self file = Js.Fulfilled (degraded file).
Proof. intros H. unfold extractText. rewrite H. reflexivity. Qed.

Lemma extractText_confident self file r :
  tesseractProvider self file = Js.Fulfilled r ->
  0.7 <= OCRResult.confidence r ->
  extractText self file = Js.Fulfilled r.
Proof.
  intros H Hc. unfold extractText. rewrite H. simpl.
  apply ltb_ge in Hc. rewrite Hc. reflexivity.
Qed.

Lemma extractText_no_fallback self file r :
  tesseractProvider self file = Js.Fulfilled r ->
  fallbackProvider self = None ->
  extractText self file = Js.Fulfilled r.
Proof.
  intros H Hf. unfold extractText. rewrite H, Hf. simpl.
  now destruct (Num.ltb _ _).
Qed.

(** C4. [HybridOCRProvider.extractText] is always fulfilled.  A primary
    result of confidence at least 0.7, or any primary result when no
    fallback is configured, is returned as it is.  Below 0.7 with a fallback
    configured, the result is the fallback's when its confidence is
    strictly higher and the primary's otherwise, also when the fallback
    throws.  When the primary provider throws, the result is the degraded
    one: a placeholder text naming the file, at confidence 0.1. *)
Theorem extractText_never_throws (self : HybridOCRProvider.t) (file : File.t) :
  (exists result, extractText self file = Js.Fulfilled result)
  /\ (forall r,
        tesseractProvider self file = Js.Fulfilled r ->
        0.7 <= OCRResult.confidence r \/ fallbackProvider self = None ->
        extractText self file = Js.Fulfilled r)
  /\ (forall r fallback,
        tesseractProvider self file = Js.Fulfilled r ->
        OCRResult.confidence r < 0.7 ->
        fallbackProvider self = Some fallback ->
        (forall r2, fallback file = Js.Fulfilled r2 ->
           exists result,
             extractText self file = Js.Fulfilled result
             /\ (OCRResult.confidence r < OCRResult.confidence r2 -> result = r2)
             /\ (OCRResult.confidence r2 <= OCRResult.confidence r -> result = r)
             /\ OCRResult.confidence r <= OCRResult.confidence result
             /\ OCRResult.confidence r2 <= OCRResult.confidence result)
        /\ (forall e, fallback file = Js.Rejected e ->
              extractText self file = Js.Fulfilled r))
  /\ (forall e,
        tesseractProvider self file = Js.Rejected e ->
        extractText self file = Js.Fulfilled (degraded file)
        /\ OCRResult.confidence (degraded file) = 0.1
        /\ OCRResult.text (degraded file)
           = "Unable to extract text from " ++ File.name file
               ++ ". Please verify the document is clear and readable.").
Proof.
  split; [| split; [| split]].
  - unfold extractText.
    destruct (tesseractProvider self file) as [r | e]; simpl;
      [| eexists; reflexivity].
    destruct (if Num.ltb _ _ then _ else _) as [fb |];
      [| eexists; reflexivity].
    destruct (fb file); eexists; reflexivity.
  - intros r H [Hc | Hf].
    + now apply extractText_confident.
    + now apply extractText_no_fallback.
  - intros r fb H Hc Hf. apply ltb_lt in Hc.
    unfold extractText. rewrite H. simpl. rewrite Hc, Hf. split.
    + intros r2 H2. rewrite H2.
      destruct (Num.gtb (OCRResult.confidence r2) (OCRResult.confidence r)) eqn:E.
      * apply gtb_lt in E. exists r2. repeat split; trivial; intros; lra.
      * apply gtb_le in E. exists r. repeat split; trivial; intros; lra.
    + intros e H2. rewrite H2. reflexivity.
  - intros e H. repeat split. now apply extractText_primary_failed with e.
Qed.

(** The four cases of C4 on concrete providers: a confident primary, a weak
    primary beaten by the fallback, a weak primary whose fallback throws,
    and a primary that throws. *)
Lemma extractText_never_throws_witness :
  extractText (mk (Scenario.always (Scenario.recognized "clear" 0.9)) None) Scenario.scan
    = Js.Fulfilled (Scenario.recognized "clear" 0.9)
  /\ (exists result,
        extractText (mk (Scenario.always (Scenario.recognized "blurred" 0.4))
                        (Some (Scenario.always (Scenario.recognized "sharper" 0.6))))
                    Scenario.scan
        = Js.Fulfilled result
        /\ OCRResult.confidence (Scenario.recognized "blurred" 0.4)
           <= OCRResult.confidence result)
  /\ extractText (mk (Scenario.always (Scenario.recognized "blurred" 0.4))
                     (Some Scenario.failing)) Scenario.scan
     = Js.Fulfilled (Scenario.recognized "blurred" 0.4)
  /\ extractText (mk Scenario.failing None) Scenario.scan
     = Js.Fulfilled (degraded Scenario.scan).
Proof.
  split; [| split; [| split]].
  - apply (proj1 (proj2 (extractText_never_throws
                           (mk (Scenario.always (Scenario.recognized "clear" 0.9)) None)
                           Scenario.scan))).
    + reflexivity.
    + left. simpl. unfold Qle. simpl. lia.
  - destruct (proj1 (proj1 (proj2 (proj2 (extractText_never_throws
               (mk (Scenario.always (Scenario.recognized "blurred" 0.4))
                   (Some (Scenario.always (Scenario.recognized "sharper" 0.6))))
               Scenario.scan)))
             (Scenario.recognized "blurred" 0.4)
             (Scenario.always (Scenario.recognized "sharper" 0.6))
             eq_refl ltac:(simpl; unfold Qlt; simpl; lia) eq_refl)
             (Scenario.recognized "sharper" 0.6) eq_refl)
      as [result [H [_ [_ [H1 _]]]]].
    exists result. split; assumption.
  - apply (proj2 (proj1 (proj2 (proj2 (extractText_never_throws
               (mk (Scenario.always (Scenario.recognized "blurred" 0.4))
                   (Some Scenario.failing))
               Scenario.scan)))
             (Scenario.recognized "blurred" 0.4) Scenario.failing
             eq_refl ltac:(simpl; unfold Qlt; simpl; lia) eq_refl)
           (Js.Error "OCR worker not available")).
    reflexivity.
  - apply (proj2 (proj2 (proj2 (extractText_never_throws
               (mk Scenario.failing None) Scenario.scan)))
             (Js.Error "OCR worker not available")).
    reflexivity.
Defined.

End Hybrid.

(** ** The orchestrator: one document *)

Module Orchestrator.

Import DocumentParsingService NumFacts.

Lemma parseDocument_rejected self file documentId e :
  ocrProvider self file = Js.Rejected e ->
  parseDocument self file documentId
  = Js.Rejected (Js.Error ("Failed to parse document: " ++ error_message e)).
Proof. intros H. unfold parseDocument. rewrite H. reflexivity. Qed.

Lemma parseDocument_fulfilled self file documentId ocrResult :
  ocrProvider self file = Js.Fulfilled ocrResult ->
  exists doc,
    parseDocument self file documentId = Js.Fulfilled doc
    /\ ExtractedDocument.documentId doc = documentId
    /\ ExtractedDocument.type doc
       = Detection.type (detectDocumentType (File.name file) (OCRResult.text ocrResult)).
Proof.
  intros H. unfold parseDocument. rewrite H. simpl.
  eexists. split; [reflexivity |]. split; reflexivity.
Qed.

(** *** Confidence of the fields a parser creates *)

Lemma extractField_from_confidence regexes text pattern ocrResult f :
  TaxFormParser.extractField_from regexes text pattern ocrResult = Some f ->
  ExtractedField.confidence f = 0.8.
Proof.
  induction regexes as [| regex rest IH]; simpl; [discriminate |].
  destruct (Regex.String_match text regex) as [m |]; [| exact IH].
  destruct (negb _ && _); [| exact IH].
  intros H. inversion H. reflexivity.
Qed.

Lemma extractAll_confidence fieldPatterns ocrResult :
  Forall (fun f => ExtractedField.confidence f = 0.8)
         (TaxFormParser.extractAll fieldPatterns ocrResult).
Proof.
  induction fieldPatterns as [| pattern rest IH]; simpl; [constructor |].
  destruct (TaxFormParser.extractField _ pattern ocrResult) as [f |] eqn:E; trivial.
  constructor; trivial.
  now apply extractField_from_confidence in E.
Qed.

Lemma in_bounds_of_eq f c :
  ExtractedField.confidence f = c -> 0.1 <= c -> c <= 1.0 -> Spec.in_bounds f.
Proof. unfold Spec.in_bounds. intros -> H1 H2. split; assumption. Qed.

Lemma postProcessFields_bounds fields ocrResult :
  Forall Spec.in_bounds fields ->
  Forall Spec.in_bounds (TaxFormParser.postProcessFields fields ocrResult).
Proof.
  intros H. unfold TaxFormParser.postProcessFields.
  destruct fields; [| exact H].
  destruct (2 <=? _)%nat; [| constructor].
  destruct (TaxFormParser.sort_descending _) as [| a0 [| a1 rest]];
    repeat constructor; simpl; lra.
Qed.

Lemma base_parseDocument_bounds fieldPatterns ocrResult :
  Forall Spec.in_bounds
    (TaxFormParser.base_parseDocument fieldPatterns
       TaxFormParser.postProcessFields ocrResult).
Proof.
  unfold TaxFormParser.base_parseDocument. apply postProcessFields_bounds.
  eapply Forall_impl; [| apply extractAll_confidence].
  intros f H. apply (in_bounds_of_eq f H); lra.
Qed.

Lemma hardcoded_bounds fields :
  Spec.all_099 fields -> Forall Spec.in_bounds fields.
Proof.
  apply Forall_impl. intros f H. apply (in_bounds_of_eq f H); lra.
Qed.

Lemma parser_bounds docType parser ocrResult :
  createFormParser docType = Some parser ->
  Forall Spec.in_bounds (TaxFormParser.parseDocument parser ocrResult).
Proof.
  destruct docType; simpl; intros H; inversion H; subst; simpl.
  - apply hardcoded_bounds, Hardcoded.W2_all_099.
  - apply base_parseDocument_bounds.
  - apply base_parseDocument_bounds.
  - apply hardcoded_bounds, Hardcoded.NEC_all_099.
Qed.

Lemma performGenericExtraction_bounds ocrResult documentId :
  Forall Spec.in_bounds (performGenericExtraction ocrResult documentId).
Proof.
  unfold performGenericExtraction. apply Forall_app. split.
  - apply Forall_flat_map, Forall_forall. intros [index m] _.
    destruct (TaxFormParser.parse_amount m) as [value |]; [| constructor].
    destruct (Num.gtb value 0); repeat constructor; simpl; lra.
  - apply Forall_map, Forall_forall. intros [index m] _.
    split; simpl; lra.
Qed.

(** *** The adjustments *)

Lemma damp_floor detectionResult field :
  Detection.confidence detectionResult < 0.8 ->
  0.1 <= ExtractedField.confidence (damp detectionResult field).
Proof.
  intros H. apply ltb_lt in H. unfold damp. rewrite H. simpl.
  apply Math_max_l.
Qed.

Lemma penalize_negative_floor field :
  is_negative (ExtractedField.value field) = true ->
  0.1 <= ExtractedField.confidence (penalize_negative field).
Proof.
  intros H. unfold penalize_negative. rewrite H. simpl. apply Math_max_l.
Qed.

Lemma penalize_ocr_floor ocrResult field :
  OCRResult.confidence ocrResult < 0.8 ->
  0.1 <= ExtractedField.confidence (penalize_ocr ocrResult field).
Proof.
  intros H. apply ltb_lt in H. unfold penalize_ocr. rewrite H. simpl.
  apply Math_max_l.
Qed.

Lemma flag_high_floor field :
  0.3 <= ExtractedField.confidence (W2Parser.flag_high field).
Proof. simpl. apply Math_max_l. Qed.

Lemma update_first_cases k g fields :
  Forall2 (fun f f' => f' = f \/ f' = g f) fields (W2Parser.update_first k g fields).
Proof.
  induction fields as [| f rest IH]; simpl; [constructor |].
  destruct (String.eqb _ k).
  - constructor; [now right |].
    clear IH. induction rest; constructor; auto.
  - constructor; [now left | exact IH].
Qed.

(** The cross-field rule of the W-2 parser changes at most one field of
    what the inherited method returns, and leaves it at 0.3 or more. *)
Lemma W2_postProcessFields_floor fields ocrResult :
  Forall2 (fun f f' => f' = f \/ 0.3 <= ExtractedField.confidence f')
          (TaxFormParser.postProcessFields fields ocrResult)
          (W2Parser.postProcessFields fields ocrResult).
Proof.
  unfold W2Parser.postProcessFields.
  destruct (W2Parser.unusually_high _ _).
  - eapply Forall2_impl; [| apply update_first_cases].
    intros f f' [-> | ->]; [now left | right; apply flag_high_floor].
  - generalize (TaxFormParser.postProcessFields fields ocrResult).
    induction l; constructor; auto.
Qed.

Lemma stamp_confidence documentId field :
  ExtractedField.confidence (stamp documentId field)
  = ExtractedField.confidence field.
Proof. reflexivity. Qed.

Lemma damp_bounds detectionResult field :
  Spec.in_bounds field -> Spec.in_bounds (damp detectionResult field).
Proof.
  unfold Spec.in_bounds, damp. intros [Hlo Hhi].
  destruct (Num.ltb _ 0.8) eqn:E; [| split; assumption].
  apply ltb_lt in E. simpl. split; [apply Math_max_l |].
  apply Math_max_lub; [lra | nra].
Qed.

Lemma penalize_negative_bounds field :
  Spec.in_bounds field -> Spec.in_bounds (penalize_negative field).
Proof.
  unfold Spec.in_bounds, penalize_negative. intros [Hlo Hhi].
  destruct (is_negative _); [| split; assumption].
  simpl. split; [apply Math_max_l |]. apply Math_max_lub; lra.
Qed.

Lemma penalize_ocr_bounds ocrResult field :
  Spec.in_bounds field -> Spec.in_bounds (penalize_ocr ocrResult field).
Proof.
  unfold Spec.in_bounds, penalize_ocr. intros [Hlo Hhi].
  destruct (Num.ltb _ 0.8); [| split; assumption].
  simpl. split; [apply Math_max_l |]. apply Math_max_lub; lra.
Qed.

Lemma enhance_bounds ocrResult field :
  Spec.in_bounds field -> Spec.in_bounds (enhance ocrResult field).
Proof.
  intros H. unfold enhance, Spec.in_bounds.
  rewrite Review.annotate_confidence.
  now apply penalize_ocr_bounds, penalize_negative_bounds.
Qed.

(** C5. Every field of a document returned by [parseDocument] has a
    confidence between 0.1 and 1.0, whatever the provider and the file.
    Each adjustment, when it applies, leaves the confidence at or above its
    floor: 0.1 for the classification damping, the negative-value penalty
    and the source-quality penalty, 0.3 for the one field the cross-field
    rule of the W-2 parser changes. *)
Theorem parseDocument_confidence_bounds :
  (forall self file documentId doc,
     parseDocument self file documentId = Js.Fulfilled doc ->
     Forall (fun f => 0.1 <= ExtractedField.confidence f
                      /\ ExtractedField.confidence f <= 1.0)
            (ExtractedDocument.fields doc))
  /\ (forall detectionResult field,
        Detection.confidence detectionResult < 0.8 ->
        0.1 <= ExtractedField.confidence (damp detectionResult field))
  /\ (forall fields ocrResult,
        Forall2 (fun f f' => f' = f \/ 0.3 <= ExtractedField.confidence f')
                (TaxFormParser.postProcessFields fields ocrResult)
                (W2Parser.postProcessFields fields ocrResult))
  /\ (forall ocrResult field,
        OCRResult.confidence ocrResult < 0.8 ->
        0.1 <= ExtractedField.confidence (penalize_ocr ocrResult field))
  /\ (forall field,
        is_negative (ExtractedField.value field) = true ->
        0.1 <= ExtractedField.confidence (penalize_negative field)).
Proof.
  split; [| split; [| split; [| split]]].
  - intros self file documentId doc. unfold parseDocument.
    destruct (ocrProvider self file) as [ocrResult | e]; simpl; [| discriminate].
    intros H. inversion H. subst doc. clear H. simpl.
    unfold validateAndEnhanceFields. apply Forall_map.
    set (detectionResult := detectDocumentType _ _).
    destruct (createFormParser (Detection.type detectionResult)) as [parser |] eqn:E.
    + apply Forall_map.
      eapply Forall_impl; [| apply (parser_bounds _ ocrResult E)].
      intros f Hf. apply enhance_bounds, damp_bounds. exact Hf.
    + eapply Forall_impl; [| apply performGenericExtraction_bounds].
      intros f Hf. apply enhance_bounds. exact Hf.
  - exact damp_floor.
  - exact W2_postProcessFields_floor.
  - exact penalize_ocr_floor.
  - exact penalize_negative_floor.
Qed.

(** C5 on a document: an interest statement read at recognition confidence
    0.5, whose two text fields end at confidence 0.6. *)
Lemma parseDocument_confidence_bounds_witness :
  exists doc,
    parseDocument (Scenario.service 0.5)
                  (File.mk "1099-int.pdf" Scenario.interest_statement) "doc-1"
    = Js.Fulfilled doc
    /\ List.length (ExtractedDocument.fields doc) = 2%nat
    /\ Forall (fun f => 0.1 <= ExtractedField.confidence f
                        /\ ExtractedField.confidence f <= 1.0)
              (ExtractedDocument.fields doc).
Proof.
  eexists. split; [vm_compute; reflexivity |]. split; [reflexivity |].
  apply (proj1 parseDocument_confidence_bounds
               (Scenario.service 0.5)
               (File.mk "1099-int.pdf" Scenario.interest_statement)
               "doc-1").
  vm_compute. reflexivity.
Defined.

(** ** The orchestrator: a batch *)

Lemma fulfilled_values_settle {A} (ps : list (Js.Promise A)) :
  map Js.Fulfilled (fulfilled_values (map Js.settle ps))
  = filter Spec.succeeded ps.
Proof.
  induction ps as [| [v | e] ps IH]; simpl; trivial.
  now rewrite IH.
Qed.

(** C3. [parseMultipleDocuments] is always fulfilled, and its list holds
    exactly the documents of the inputs whose own [parseDocument] was
    fulfilled, in input order.  With three inputs of which the second's
    recognition throws, the list is the documents of the first and the
    third. *)
Theorem parseMultipleDocuments_isolates (self : DocumentParsingService.t) :
  (forall files,
     exists docs,
       parseMultipleDocuments self files = Js.Fulfilled docs
       /\ map Js.Fulfilled docs
          = filter Spec.succeeded
              (map (fun '(file, documentId) => parseDocument self file documentId)
                   files)
       /\ (forall doc,
             In doc docs <->
             exists file documentId,
               In (file, documentId) files
               /\ parseDocument self file documentId = Js.Fulfilled doc))
  /\ (forall f1 f2 f3 id1 id2 id3 r1 r3 e,
        ocrProvider self f1 = Js.Fulfilled r1 ->
        ocrProvider self f2 = Js.Rejected e ->
        ocrProvider self f3 = Js.Fulfilled r3 ->
        exists d1 d3,
          parseDocument self f1 id1 = Js.Fulfilled d1
          /\ parseDocument self f3 id3 = Js.Fulfilled d3
          /\ parseMultipleDocuments self [(f1, id1); (f2, id2); (f3, id3)]
             = Js.Fulfilled [d1; d3]).
Proof.
  split.
  - intros files. unfold parseMultipleDocuments, Js.allSettled. simpl.
    eexists. split; [reflexivity |]. split; [apply fulfilled_values_settle |].
    induction files as [| [file documentId] files IH]; simpl.
    + intros doc. split; [intros [] | intros [? [? [[] _]]]].
    + intros doc.
      destruct (parseDocument self file documentId) as [d | e] eqn:E; simpl;
        rewrite IH; split.
      * intros [<- | [f [i [Hin Hp]]]].
        -- exists file, documentId. split; [now left | exact E].
        -- exists f, i. split; [now right | exact Hp].
      * intros [f [i [[Heq | Hin] Hp]]].
        -- inversion Heq; subst. rewrite E in Hp. inversion Hp. now left.
        -- right. exists f, i. split; assumption.
      * intros [f [i [Hin Hp]]]. exists f, i. split; [now right | exact Hp].
      * intros [f [i [[Heq | Hin] Hp]]].
        -- inversion Heq; subst. rewrite E in Hp. discriminate Hp.
        -- exists f, i. split; assumption.
  - intros f1 f2 f3 id1 id2 id3 r1 r3 e H1 H2 H3.
    destruct (parseDocument_fulfilled self f1 id1 H1) as [d1 [Hd1 _]].
    destruct (parseDocument_fulfilled self f3 id3 H3) as [d3 [Hd3 _]].
    exists d1, d3. split; [exact Hd1 |]. split; [exact Hd3 |].
    unfold parseMultipleDocuments, Js.allSettled. simpl.
    rewrite Hd1, Hd3, (parseDocument_rejected self f2 id2 H2). reflexivity.
Qed.

(** C3 on three files, the second of them empty, on which the provider of
    the scenario throws: the batch is fulfilled with two documents, those
    of the first and of the third file. *)
Lemma parseMultipleDocuments_isolates_witness :
  exists d1 d3,
    parseDocument (Scenario.service 0.9) (File.mk "a.pdf" Scenario.single_amount) "a"
    = Js.Fulfilled d1
    /\ parseDocument (Scenario.service 0.9) (File.mk "c.pdf" Scenario.three_amounts) "c"
       = Js.Fulfilled d3
    /\ parseMultipleDocuments (Scenario.service 0.9)
         [(File.mk "a.pdf" Scenario.single_amount, "a");
          (File.mk "b.pdf" EmptyString, "b");
          (File.mk "c.pdf" Scenario.three_amounts, "c")]
       = Js.Fulfilled [d1; d3].
Proof.
  apply (proj2 (parseMultipleDocuments_isolates (Scenario.service 0.9))
               (File.mk "a.pdf" Scenario.single_amount)
               (File.mk "b.pdf" EmptyString)
               (File.mk "c.pdf" Scenario.three_amounts)
               "a" "b" "c"
               (Scenario.recognized Scenario.single_amount 0.9)
               (Scenario.recognized Scenario.three_amounts 0.9)
               (Js.Error "OCR processing failed")).
  - reflexivity.
  - reflexivity.
  - reflexivity.
Defined.

End Orchestrator.

(** ** The classifier *)

Module Classifier.

Import DocumentParsingService NumFacts.

Lemma Z2Q_S n : Spec.of_count (S n) == Spec.of_count n + 1.
Proof.
  unfold Spec.of_count. rewrite Nat2Z.inj_succ, <- Z.add_1_r, inject_Z_plus. reflexivity.
Qed.

Lemma Z2Q_add n m : Spec.of_count (n + m) == Spec.of_count n + Spec.of_count m.
Proof. unfold Spec.of_count. now rewrite Nat2Z.inj_add, inject_Z_plus. Qed.

Lemma Z2Q_nonneg n : 0 <= Spec.of_count n.
Proof.
  unfold Spec.of_count. change 0 with (inject_Z 0). rewrite <- Zle_Qle. lia.
Qed.

(** Each loop adds its weight once per matching pattern, and counts it. *)
Lemma tally_counts weight regexes s :
  forall acc,
    fst (tally weight regexes s acc)
    == fst acc + weight * Spec.of_count (Spec.matching regexes s)
    /\ snd (tally weight regexes s acc)
       = (snd acc + Spec.matching regexes s)%nat.
Proof.
  unfold tally, Spec.matching.
  induction regexes as [| regex rest IH]; intros [q n]; simpl.
  - change (Spec.of_count 0) with 0. split; [lra | lia].
  - destruct (Regex.test regex s); simpl.
    + destruct (IH (q + weight, S n)) as [H1 H2]. simpl in H1, H2.
      rewrite H1, H2. split; [| lia].
      rewrite Z2Q_S. lra.
    + apply IH.
Qed.

Lemma accumulate_counts pattern lowerFilename lowerText :
  fst (accumulate pattern lowerFilename lowerText)
  == 0.4 * Spec.of_count (Spec.matching (DocumentTypePattern.filename pattern) lowerFilename)
     + 0.6 * Spec.of_count (Spec.matching (DocumentTypePattern.content pattern) lowerText)
  /\ snd (accumulate pattern lowerFilename lowerText)
     = (Spec.matching (DocumentTypePattern.filename pattern) lowerFilename
        + Spec.matching (DocumentTypePattern.content pattern) lowerText)%nat.
Proof.
  unfold accumulate.
  destruct (tally_counts 0.6 (DocumentTypePattern.content pattern) lowerText
              (tally 0.4 (DocumentTypePattern.filename pattern) lowerFilename (0, 0%nat)))
    as [H1 H2].
  destruct (tally_counts 0.4 (DocumentTypePattern.filename pattern) lowerFilename
              (0, 0%nat)) as [H3 H4].
  simpl in H3, H4. rewrite H1, H2, H3, H4. split; [lra | lia].
Qed.

(** The confidence the loop body computes is the score of the
    specification. *)
Lemma candidateConfidence_score pattern filename text :
  candidateConfidence pattern (Str.toLowerCase filename) (Str.toLowerCase text)
  == Spec.score pattern filename text.
Proof.
  unfold candidateConfidence, Spec.score.
  destruct (accumulate_counts pattern (Str.toLowerCase filename)
              (Str.toLowerCase text)) as [H1 H2].
  destruct (accumulate _ _ _) as [q n]. simpl in H1, H2.
  destruct (0 <? n)%nat eqn:E.
  - rewrite (Math_min_eq 1.0 H1). reflexivity.
  - apply Nat.ltb_ge in E.
    assert (Hf : Spec.matching (DocumentTypePattern.filename pattern)
                               (Str.toLowerCase filename) = 0%nat) by lia.
    assert (Hc : Spec.matching (DocumentTypePattern.content pattern)
                               (Str.toLowerCase text) = 0%nat) by lia.
    rewrite Hf, Hc in *. change (Spec.of_count 0) with 0 in *. rewrite H1.
    unfold Num.Math_min.
    change (Num.leb 1.0 (0.4 * 0 + 0.6 * 0)) with false. cbv iota. lra.
Qed.

Lemma step_unfold lowerFilename lowerText bestMatch pattern :
  0 <= Detection.confidence bestMatch ->
  step lowerFilename lowerText bestMatch pattern
  = if Num.gtb (candidateConfidence pattern lowerFilename lowerText)
               (Detection.confidence bestMatch)
    then Detection.mk (DocumentTypePattern.type pattern)
                      (candidateConfidence pattern lowerFilename lowerText)
    else bestMatch.
Proof.
  intros Hb. unfold step, candidateConfidence.
  destruct (accumulate_counts pattern lowerFilename lowerText) as [H1 H2].
  destruct (accumulate _ _ _) as [q n]. simpl in H1, H2.
  destruct (0 <? n)%nat eqn:E; [reflexivity |].
  apply Nat.ltb_ge in E.
  assert (Hq : q == 0).
  { rewrite H1.
    replace (Spec.matching (DocumentTypePattern.filename pattern) lowerFilename)
      with 0%nat by lia.
    replace (Spec.matching (DocumentTypePattern.content pattern) lowerText)
      with 0%nat by lia.
    change (Spec.of_count 0) with 0. lra. }
  assert (Hle : q <= Detection.confidence bestMatch) by (rewrite Hq; exact Hb).
  apply gtb_le in Hle. rewrite Hle. reflexivity.
Qed.

Section Best.

Variables lowerFilename lowerText : string.

Let cc (pattern : DocumentTypePattern.t) : Q :=
  candidateConfidence pattern lowerFilename lowerText.

(** The loop over the table keeps the running best, or ends on the first
    candidate of strictly highest confidence. *)
Lemma fold_step_best table :
  forall bestMatch,
    0 <= Detection.confidence bestMatch ->
    let r := fold_left (step lowerFilename lowerText) table bestMatch in
    (r = bestMatch
     /\ Forall (fun c => cc c <= Detection.confidence bestMatch) table)
    \/ (exists before c after,
          table = (before ++ c :: after)%list
          /\ r = Detection.mk (DocumentTypePattern.type c) (cc c)
          /\ Detection.confidence bestMatch < cc c
          /\ Forall (fun c' => cc c' < cc c) before
          /\ Forall (fun c' => cc c' <= cc c) after).
Proof.
  induction table as [| c rest IH]; intros bestMatch Hb; simpl.
  - left. split; [reflexivity | constructor].
  - rewrite (step_unfold lowerFilename lowerText bestMatch c Hb). fold (cc c).
    destruct (Num.gtb (cc c) (Detection.confidence bestMatch)) eqn:E.
    + apply gtb_lt in E.
      destruct (IH (Detection.mk (DocumentTypePattern.type c) (cc c)))
        as [[Hr Hall] | [before [c2 [after [Ht [Hr [Hlt [Hbef Haft]]]]]]]];
        simpl in *; [lra | |].
      * right. exists [], c, rest. simpl. repeat split; trivial.
      * right. exists (c :: before), c2, after. subst rest. simpl.
        repeat split; trivial; [lra |]. constructor; trivial.
    + apply gtb_le in E.
      destruct (IH bestMatch Hb)
        as [[Hr Hall] | [before [c2 [after [Ht [Hr [Hlt [Hbef Haft]]]]]]]].
      * left. split; trivial. constructor; trivial.
      * right. exists (c :: before), c2, after. subst rest. simpl.
        repeat split; trivial. constructor; trivial. lra.
Qed.

End Best.

(** The classifier over any candidate table. *)
Lemma detectIn_spec table filename text :
  (Forall (fun c => Spec.score c filename text < 0.3) table ->
   detectIn table filename text = Detection.mk UNKNOWN 0.1)
  /\ (Exists (fun c => 0.3 <= Spec.score c filename text) table ->
      exists before c after,
        table = (before ++ c :: after)%list
        /\ Detection.type (detectIn table filename text) = DocumentTypePattern.type c
        /\ Detection.confidence (detectIn table filename text)
           == Spec.score c filename text
        /\ Forall (fun c' => Spec.score c' filename text < Spec.score c filename text)
                  before
        /\ Forall (fun c' => Spec.score c' filename text <= Spec.score c filename text)
                  after).
Proof.
  unfold detectIn.
  destruct (fold_step_best (Str.toLowerCase filename) (Str.toLowerCase text) table
              (Detection.mk UNKNOWN 0) ltac:(simpl; lra))
    as [[Hr Hall] | [before [c [after [Ht [Hr [Hlt [Hbef Haft]]]]]]]];
    simpl in *; rewrite Hr; simpl.
  - split; [reflexivity |].
    intros Hex. exfalso. apply Exists_exists in Hex. destruct Hex as [c [Hin Hc]].
    rewrite Forall_forall in Hall. specialize (Hall c Hin).
    rewrite candidateConfidence_score in Hall. lra.
  - split.
    + intros Hall. rewrite Forall_forall in Hall.
      assert (Hc : Spec.score c filename text < 0.3).
      { apply Hall. subst table. apply in_elt. }
      rewrite <- candidateConfidence_score in Hc.
      apply ltb_lt in Hc. rewrite Hc. reflexivity.
    + intros Hex. exists before, c, after.
      assert (Hge : 0.3 <= candidateConfidence c (Str.toLowerCase filename)
                                               (Str.toLowerCase text)).
      { apply Exists_exists in Hex. destruct Hex as [c' [Hin Hc']].
        rewrite <- candidateConfidence_score in Hc'.
        subst table. apply in_app_or in Hin. destruct Hin as [Hin | [<- | Hin]].
        - rewrite Forall_forall in Hbef. specialize (Hbef c' Hin). lra.
        - exact Hc'.
        - rewrite Forall_forall in Haft. specialize (Haft c' Hin). lra. }
      apply ltb_ge in Hge. rewrite Hge. simpl.
      split; [exact Ht |]. split; [reflexivity |].
      split; [apply candidateConfidence_score |].
      split; (eapply Forall_impl; [| eassumption]); cbv beta; intros c' H;
        rewrite <- !candidateConfidence_score; exact H.
Qed.

(** C2. For every filename and recognized text: the confidence the loop
    computes for a candidate is min(1.0, 0.4 nf + 0.6 nc) times its base
    confidence, for nf matching filename patterns and nc matching content
    patterns; when no candidate of the table reaches 0.3 the result is
    (UNKNOWN, 0.1); otherwise the result is a candidate of the table with
    its score, every candidate declared before it scores strictly less and
    every candidate declared after it scores at most as much. *)
Theorem detectDocumentType_highest_first (filename text : string) :
  (forall c,
     candidateConfidence c (Str.toLowerCase filename) (Str.toLowerCase text)
     == Num.Math_min 1.0
          (0.4 * Spec.of_count (Spec.matching (DocumentTypePattern.filename c)
                                              (Str.toLowerCase filename))
           + 0.6 * Spec.of_count (Spec.matching (DocumentTypePattern.content c)
                                                (Str.toLowerCase text)))
        * DocumentTypePattern.confidence c)
  /\ (Forall (fun c => Spec.score c filename text < 0.3) documentTypePatterns ->
      detectDocumentType filename text = Detection.mk UNKNOWN 0.1)
  /\ (Exists (fun c => 0.3 <= Spec.score c filename text) documentTypePatterns ->
      exists before c after,
        documentTypePatterns = (before ++ c :: after)%list
        /\ Detection.type (detectDocumentType filename text)
           = DocumentTypePattern.type c
        /\ Detection.confidence (detectDocumentType filename text)
           == Spec.score c filename text
        /\ Forall (fun c' => Spec.score c' filename text < Spec.score c filename text)
                  before
        /\ Forall (fun c' => Spec.score c' filename text <= Spec.score c filename text)
                  after).
Proof.
  split.
  - intros c. apply candidateConfidence_score.
  - apply detectIn_spec.
Qed.

(** C2 on two inputs: a file named like a W-2 with no matching content is
    classified by its filename alone; a file that matches nothing is
    UNKNOWN at confidence 0.1. *)
Lemma detectDocumentType_highest_first_witness :
  (exists before c after,
     documentTypePatterns = (before ++ c :: after)%list
     /\ Detection.type (detectDocumentType "w2_2024.pdf" "nothing")
        = DocumentTypePattern.type c
     /\ Detection.confidence (detectDocumentType "w2_2024.pdf" "nothing")
        == Spec.score c "w2_2024.pdf" "nothing"
     /\ Forall (fun c' => Spec.score c' "w2_2024.pdf" "nothing"
                          < Spec.score c "w2_2024.pdf" "nothing") before
     /\ Forall (fun c' => Spec.score c' "w2_2024.pdf" "nothing"
                          <= Spec.score c "w2_2024.pdf" "nothing") after)
  /\ detectDocumentType "notes.txt" "hello" = Detection.mk UNKNOWN 0.1.
Proof.
  split.
  - apply (proj2 (proj2 (detectDocumentType_highest_first "w2_2024.pdf" "nothing"))).
    apply Exists_cons_hd. vm_compute. discriminate.
  - apply (proj1 (proj2 (detectDocumentType_highest_first "notes.txt" "hello"))).
    repeat constructor.
Defined.

(** *** Monotonicity in the content patterns *)

Lemma matching_insert before after extra s :
  Regex.test extra s = true ->
  Spec.matching (before ++ extra :: after) s
  = S (Spec.matching (before ++ after) s).
Proof.
  intros H. unfold Spec.matching.
  rewrite !filter_app, !length_app. simpl. rewrite H. simpl. lia.
Qed.

Lemma score_add_content candidate before after extra filename text :
  DocumentTypePattern.content candidate = (before ++ after)%list ->
  0 <= DocumentTypePattern.confidence candidate ->
  Regex.test extra (Str.toLowerCase text) = true ->
  Spec.score candidate filename text
  <= Spec.score (Spec.add_content candidate before after extra) filename text.
Proof.
  intros Hc Hb Ht. unfold Spec.score, Spec.add_content. simpl.
  rewrite Hc, (matching_insert before after extra _ Ht).
  apply Qmult_le_compat_r; [| exact Hb].
  apply Math_min_mono. rewrite Z2Q_S. lra.
Qed.

(** C9. For a fixed filename and recognized text, a candidate whose base
    confidence is not negative, and a further content pattern that matches
    the text: the confidence computed for the candidate with the pattern
    added (at any position of its content list) is at least the confidence
    computed without it. *)
Theorem content_pattern_monotone
        (candidate : DocumentTypePattern.t) (before after : list Regex.RegExp)
        (extra : Regex.RegExp) (filename text : string) :
  DocumentTypePattern.content candidate = (before ++ after)%list ->
  0 <= DocumentTypePattern.confidence candidate ->
  Regex.test extra (Str.toLowerCase text) = true ->
  candidateConfidence candidate (Str.toLowerCase filename) (Str.toLowerCase text)
  <= candidateConfidence (Spec.add_content candidate before after extra)
                         (Str.toLowerCase filename) (Str.toLowerCase text).
Proof.
  intros Hc Hb Ht. rewrite !candidateConfidence_score.
  now apply score_add_content.
Qed.

(** C9 on the 1098-E candidate of the table, the text of a student loan
    statement and the extra pattern [/lender/i]: the confidence goes from
    0.48 to 0.8. *)
Lemma content_pattern_monotone_witness :
  candidateConfidence
    (nth 4 documentTypePatterns (DocumentTypePattern.mk UNKNOWN [] [] 0))
    (Str.toLowerCase "scan.pdf") (Str.toLowerCase "Student loan interest, lender: ACME")
  <= candidateConfidence
       (Spec.add_content
          (nth 4 documentTypePatterns (DocumentTypePattern.mk UNKNOWN [] [] 0))
          (DocumentTypePattern.content
             (nth 4 documentTypePatterns (DocumentTypePattern.mk UNKNOWN [] [] 0)))
          []
          (Regex.re_i (Regex.lit "lender")))
       (Str.toLowerCase "scan.pdf") (Str.toLowerCase "Student loan interest, lender: ACME").
Proof.
  apply (@content_pattern_monotone
           (nth 4 documentTypePatterns (DocumentTypePattern.mk UNKNOWN [] [] 0))
           (DocumentTypePattern.content
              (nth 4 documentTypePatterns (DocumentTypePattern.mk UNKNOWN [] [] 0)))
           []
           (Regex.re_i (Regex.lit "lender"))
           "scan.pdf" "Student loan interest, lender: ACME").
  - reflexivity.
  - simpl. unfold Qle. simpl. lia.
  - vm_compute. reflexivity.
Defined.

End Classifier.

(** ** The fallback extraction *)

Module Fallback.

Import TaxFormParser NumFacts.

Lemma insert_descending_perm x l :
  Permutation (insert_descending x l) (x :: l).
Proof.
  induction l as [| y l IH]; simpl; [reflexivity |].
  destruct (Qle_bool y x); [reflexivity |].
  rewrite IH. apply perm_swap.
Qed.

Lemma sort_descending_perm l : Permutation (sort_descending l) l.
Proof.
  induction l as [| x l IH]; simpl; [constructor |].
  fold (sort_descending l).
  rewrite insert_descending_perm. now constructor.
Qed.

Lemma insert_descending_hd x y l :
  y <= x -> HdRel Spec.descending x l -> HdRel Spec.descending x (insert_descending y l).
Proof.
  intros Hxy H. destruct l as [| z l]; simpl; [now constructor |].
  destruct (Qle_bool z y); constructor; trivial.
  now inversion H.
Qed.

Lemma insert_descending_sorted x l :
  Sorted Spec.descending l -> Sorted Spec.descending (insert_descending x l).
Proof.
  induction 1 as [| y l Hs IH Hhd]; simpl.
  - repeat constructor.
  - destruct (Qle_bool y x) eqn:E.
    + apply Qle_bool_iff in E. repeat constructor; trivial.
    + constructor; [exact IH |].
      apply insert_descending_hd; trivial.
      apply Qlt_le_weak, leb_gt. exact E.
Qed.

Lemma sort_descending_sorted l : Sorted Spec.descending (sort_descending l).
Proof.
  induction l as [| x l IH]; simpl; [constructor |].
  now apply insert_descending_sorted.
Qed.

(** The amounts the code keeps are those the specification keeps. *)
Lemma large_amounts_filter ms :
  large_amounts ms
  = filter (fun a => negb (Num.leb a 100))
           (flat_map (fun m => match parse_amount m with
                               | Some a => [a]
                               | None => []
                               end) ms).
Proof.
  induction ms as [| m ms IH]; simpl; trivial.
  destruct (parse_amount m) as [a |]; simpl; trivial.
  unfold Num.gtb, Num.ltb, Num.leb in *.
  destruct (Qle_bool a 100); simpl; now rewrite IH.
Qed.

Lemma postProcessFields_fallback ocrResult :
  postProcessFields [] ocrResult
  = if (2 <=? List.length (Regex.String_match_all (OCRResult.text ocrResult)
                                                  currency_shaped))%nat
    then Spec.fallback (OCRResult.text ocrResult)
    else [].
Proof.
  unfold postProcessFields, Spec.fallback, Spec.fallback_amounts.
  rewrite large_amounts_filter.
  destruct (2 <=? _)%nat; trivial.
  destruct (sort_descending _) as [| a0 [| a1 rest]]; reflexivity.
Qed.

Lemma fallback_amounts_large text :
  Forall (fun a => 100 < a) (Spec.fallback_amounts text).
Proof.
  unfold Spec.fallback_amounts. apply Forall_forall. intros a Hin.
  apply (Permutation_in _ (sort_descending_perm _)) in Hin.
  apply filter_In in Hin. destruct Hin as [_ H].
  apply negb_true_iff, leb_gt in H. exact H.
Qed.

(** C6, as the code has it.  When the field specifications of a parser
    yield no field and the text holds at least two currency-shaped
    substrings, the fallback parses each of them, discards the amounts of at
    most 100, puts the rest in descending order and emits the largest as
    [wages] and, when a second amount remains, the second largest as
    [federalTaxWithheld], both at confidence 0.6.  With fewer than two
    currency-shaped substrings it emits nothing. *)
Theorem fallback_needs_two_matches
        (fieldPatterns : list FieldPattern.t) (ocrResult : OCRResult.t) :
  extractAll fieldPatterns ocrResult = [] ->
  let matches :=
    Regex.String_match_all (OCRResult.text ocrResult) currency_shaped in
  let out := base_parseDocument fieldPatterns postProcessFields ocrResult in
  ((2 <= List.length matches)%nat ->
   out = Spec.fallback (OCRResult.text ocrResult))
  /\ ((List.length matches < 2)%nat -> out = [])
  /\ Forall (fun f => ExtractedField.confidence f = 0.6) out
  /\ Sorted Spec.descending (Spec.fallback_amounts (OCRResult.text ocrResult))
  /\ Forall (fun a => 100 < a) (Spec.fallback_amounts (OCRResult.text ocrResult))
  /\ Permutation
       (Spec.fallback_amounts (OCRResult.text ocrResult))
       (filter (fun a => negb (Num.leb a 100))
               (flat_map (fun m => match parse_amount m with
                                   | Some a => [a]
                                   | None => []
                                   end) matches)).
Proof.
  intros Hnone matches out. subst out. unfold base_parseDocument.
  rewrite Hnone, postProcessFields_fallback. fold matches.
  split; [| split; [| split; [| split; [| split]]]].
  - intros H. apply Nat.leb_le in H. rewrite H. reflexivity.
  - intros H. apply Nat.leb_gt in H. rewrite H. reflexivity.
  - destruct (2 <=? _)%nat; [| constructor].
    unfold Spec.fallback, Spec.fallback_fields.
    destruct (Spec.fallback_amounts _) as [| a0 [| a1 rest]]; repeat constructor.
  - apply sort_descending_sorted.
  - apply fallback_amounts_large.
  - apply sort_descending_perm.
Qed.

(** C6 on a text with three currency-shaped substrings, 5,000.00, 50 and
    700, and the field specifications of the 1099-INT parser, none of which
    yields a field: [wages] is 5000 and [federalTaxWithheld] is 700. *)
Lemma fallback_needs_two_matches_witness :
  base_parseDocument Form1099INTParser.fieldPatterns postProcessFields
    (Scenario.recognized Scenario.three_amounts 0.9)
  = [auto_detected "wages" "Wages (Auto-detected)" 5000.00;
     auto_detected "federalTaxWithheld" "Federal Tax Withheld (Auto-detected)" 700]%list.
Proof.
  rewrite (proj1 (@fallback_needs_two_matches
                    Form1099INTParser.fieldPatterns
                    (Scenario.recognized Scenario.three_amounts 0.9)
                    ltac:(vm_compute; reflexivity))
                 ltac:(vm_compute; lia)).
  vm_compute. reflexivity.
Defined.

(** Counterexample to C6 as stated: on a text with a single
    currency-shaped substring, 5,000.00, the field specifications of the
    1099-INT parser yield no field and the fallback of the specification
    emits [wages] at 5000, but the code emits nothing. *)
Lemma fallback_single_amount :
  extractAll Form1099INTParser.fieldPatterns
             (Scenario.recognized Scenario.single_amount 0.9) = []
  /\ Spec.fallback Scenario.single_amount
     = [auto_detected "wages" "Wages (Auto-detected)" 5000.00]%list
  /\ TaxFormParser.parseDocument Form1099INTParser.new
       (Scenario.recognized Scenario.single_amount 0.9) = []
  /\ ~ (forall fieldPatterns ocrResult,
          extractAll fieldPatterns ocrResult = [] ->
          base_parseDocument fieldPatterns postProcessFields ocrResult
          = Spec.fallback (OCRResult.text ocrResult)).
Proof.
  split; [vm_compute; reflexivity |].
  split; [vm_compute; reflexivity |].
  split; [vm_compute; reflexivity |].
  intros H.
  specialize (H Form1099INTParser.fieldPatterns
                (Scenario.recognized Scenario.single_amount 0.9)
                ltac:(vm_compute; reflexivity)).
  vm_compute in H. discriminate H.
Qed.

End Fallback.
